(** * hn-mcp-server: the Hacker News API client and its tool layer

    A shallow embedding of [src/api.ts] (the HTTP JSON fetcher, the flat
    accessors, the paginated listing, the bounded recursive comment-tree
    fetch and the search query builder) and of the two handler families of
    [src/tools.ts] that clamp their arguments, followed by the properties
    that the specification states about them.

    Modelling choices.
    - A JavaScript [number] that the code uses as an id, a depth, a limit,
      an offset or a page index is an integer of [Z]: the tool schemas
      declare all of them [.int()].  Fractions and NaN are outside the
      model.
    - A string is a [string] of bytes (the UTF-8 form of the text).
    - The remote services are a fixed oracle [Network]: for the duration of
      one call, fetching the same URL twice yields the same outcome, and
      every fetch settles.
    - An [async] function returns a [Promise]: the list of the URLs it has
      fetched, and how it settled.  The fetches of the members of a
      [Promise.all] are listed member after member; the real interleaving
      depends on the network, and no property below depends on more than
      which URLs occur in the list. *)

From Stdlib Require Import ZArith String Ascii List Bool Lia DecimalString.
From stdpp Require Import base list.
From Equations Require Import Equations.
Import ListNotations.

#[local] Set Warnings "-register-all".
#[local] Open Scope Z_scope.

(* ===================================================================== *)
(** * JavaScript built-ins used by the sources *)
(* ===================================================================== *)

(** [String(n)] and [`${n}`] for an integer [n] (of a size below 10^21,
    where JavaScript changes to the exponent notation). *)
Definition String_of_number (n : Z) : string :=
  NilZero.string_of_int (Z.to_int n).

(** The relative index of [Array.prototype.slice]: a negative index counts
    from the end, and both ends are cut to [0 .. len]. *)
Definition relative_index (len k : Z) : Z :=
  if k <? 0 then Z.max (len + k) 0 else Z.min k len.

(** [l.slice(start, end)]. *)
Definition slice {A : Type} (l : list A) (start end_ : Z) : list A :=
  let len := Z.of_nat (length l) in
  let k := relative_index len start in
  let final := relative_index len end_ in
  take (Z.to_nat (final - k)) (drop (Z.to_nat k) l).

(** [o ?? d] at an optional property. *)
Definition nullish {A : Type} (o : option A) (d : A) : A :=
  match o with
  | Some a => a
  | None => d
  end.

(** Truthiness of a string: every string but the empty one. *)
Definition truthy_string (s : string) : bool :=
  match s with
  | EmptyString => false
  | String _ _ => true
  end.

(** [sep.join] over strings. *)
Fixpoint join (sep : string) (parts : list string) : string :=
  match parts with
  | [] => EmptyString
  | [p] => p
  | p :: rest => (p ++ sep ++ join sep rest)%string
  end.

(** [s.repeat(n)]. *)
Fixpoint repeat_string (s : string) (n : nat) : string :=
  match n with
  | O => EmptyString
  | S n' => (s ++ repeat_string s n')%string
  end.

(** ** URLSearchParams *)

(** The parameter list of a [URLSearchParams] object, in insertion order. *)
Definition URLSearchParams : Type := list (string * string).

Definition params_has (name : string) (ps : URLSearchParams) : bool :=
  existsb (fun p => String.eqb (fst p) name) ps.

(** [ps.get(name)]: the value of the first pair called [name]. *)
Fixpoint params_get (name : string) (ps : URLSearchParams) : option string :=
  match ps with
  | [] => None
  | (k, v) :: rest => if String.eqb k name then Some v else params_get name rest
  end.

(** [ps.set(name, value)]: the first pair called [name] takes the value and
    the later ones go; without such a pair, a new one is appended. *)
Fixpoint params_replace (name value : string) (ps : URLSearchParams) : URLSearchParams :=
  match ps with
  | [] => []
  | (k, v) :: rest =>
      if String.eqb k name
      then (k, value) :: List.filter (fun p => negb (String.eqb (fst p) name)) rest
      else (k, v) :: params_replace name value rest
  end.

Definition params_set (name value : string) (ps : URLSearchParams) : URLSearchParams :=
  if params_has name ps then params_replace name value ps
  else ps ++ [(name, value)].

(** The application/x-www-form-urlencoded serializer behind
    [ps.toString()]: letters, digits and [*-._] stay, a space becomes [+],
    every other byte becomes [%XX]. *)
Definition hex_digit (n : nat) : ascii :=
  ascii_of_nat (if Nat.ltb n 10 then 48 + n else 55 + n).

Definition form_keeps (c : ascii) : bool :=
  let n := nat_of_ascii c in
  (Nat.leb 48 n && Nat.leb n 57) || (Nat.leb 65 n && Nat.leb n 90)
  || (Nat.leb 97 n && Nat.leb n 122)
  || Nat.eqb n 42 || Nat.eqb n 45 || Nat.eqb n 46 || Nat.eqb n 95.

Definition form_encode_byte (c : ascii) : string :=
  if form_keeps c then String c EmptyString
  else if Nat.eqb (nat_of_ascii c) 32 then "+"%string
  else let n := nat_of_ascii c in
       String "%"%char
         (String (hex_digit (Nat.div n 16))
            (String (hex_digit (Nat.modulo n 16)) EmptyString)).

Fixpoint form_encode (s : string) : string :=
  match s with
  | EmptyString => EmptyString
  | String c rest => (form_encode_byte c ++ form_encode rest)%string
  end.

Definition params_toString (ps : URLSearchParams) : string :=
  join "&" (map (fun p => (form_encode (fst p) ++ "=" ++ form_encode (snd p))%string) ps).

(* ===================================================================== *)
(** * Promises over a network oracle *)
(* ===================================================================== *)

(** What an uncaught failure can be in these sources: [fetch] rejecting
    (no response at all), [res.json()] rejecting (the body is not JSON),
    and [toISOString] throwing on a date out of range. *)
Inductive Error : Type :=
| FetchFailed
| SyntaxError
| RangeError.

Inductive Settled (A : Type) : Type :=
| Fulfilled (value : A)
| Rejected (reason : Error).
Arguments Fulfilled {A} value.
Arguments Rejected {A} reason.

(** A settled promise together with the URLs fetched on its behalf. *)
Definition Promise (A : Type) : Type := (list string * Settled A)%type.

Definition fetched {A : Type} (p : Promise A) : list string := fst p.
Definition settled {A : Type} (p : Promise A) : Settled A := snd p.

(** [return a] in an [async] function. *)
Definition resolve {A : Type} (a : A) : Promise A := ([], Fulfilled a).

(** [throw e]. *)
Definition reject {A : Type} (e : Error) : Promise A := ([], Rejected e).

(** [const a = await p; k a]: a rejection of [p] is rethrown at the
    [await] and nothing after it runs. *)
Definition await {A B : Type} (p : Promise A) (k : A -> Promise B) : Promise B :=
  match p with
  | (urls, Fulfilled a) => let '(urls', r) := k a in (urls ++ urls', r)
  | (urls, Rejected e) => (urls, Rejected e)
  end.

Notation "'let!' x ':=' p 'in' k" := (await p (fun x => k))
  (at level 10, x name, p at level 100, k at level 200).

(** How the members of a [Promise.all] settle together: with all the
    values in the order of the members, or with a rejection when a member
    rejects.  When several members reject, the reason is that of the one
    that rejects first in time; the model takes the first in the order of
    the members. *)
Fixpoint all_settled {A : Type} (rs : list (Settled A)) : Settled (list A) :=
  match rs with
  | [] => Fulfilled []
  | Fulfilled a :: rest =>
      match all_settled rest with
      | Fulfilled l => Fulfilled (a :: l)
      | Rejected e => Rejected e
      end
  | Rejected e :: _ => Rejected e
  end.

(** A function that is not [async] returns a [Settled] too when it can
    throw: [Fulfilled] is its value and [Rejected] what it throws.
    [l.map(f)] stops at the first call that throws. *)
Definition map_throwing {A B : Type} (f : A -> Settled B) (l : list A)
  : Settled (list B) :=
  all_settled (map f l).

(** The end of an [async] function whose last steps fetch nothing: it
    fulfils with what they return and rejects with what they throw. *)
Definition completed {A : Type} (s : Settled A) : Promise A := ([], s).

(** [Promise.all(ps)]: every member has been started, so the fetches of
    all of them are issued, whether or not one of them rejects. *)
Definition Promise_all {A : Type} (ps : list (Promise A)) : Promise (list A) :=
  (concat (map fetched ps), all_settled (map settled ps)).

(* ===================================================================== *)
(** * api.ts: types *)
(* ===================================================================== *)

Definition HN_BASE : string := "https://hacker-news.firebaseio.com/v0".
Definition ALGOLIA_BASE : string := "https://hn.algolia.com/api/v1".

Inductive ItemType : Type := job | story | comment | poll | pollopt.

(** [HNItem]: every property but [id] is optional. *)
Record HNItem : Type := {
  item_id : Z;
  item_type : option ItemType;
  item_by : option string;
  item_time : option Z;
  item_text : option string;
  item_url : option string;
  item_title : option string;
  item_score : option Z;
  item_descendants : option Z;
  item_kids : option (list Z);
  item_parent : option Z;
  item_parts : option (list Z);
  item_poll : option Z;
  item_dead : option bool;
  item_deleted : option bool
}.

Record HNUser : Type := {
  user_id : string;
  user_created : Z;
  user_karma : Z;
  user_about : option string;
  user_submitted : option (list Z)
}.

Record AlgoliaHit : Type := {
  hit_objectID : string;
  hit_title : option string;
  hit_url : option string;
  hit_author : string;
  hit_points : option Z;
  hit_num_comments : option Z;
  hit_created_at : string;
  hit_story_text : option string;
  hit_comment_text : option string;
  hit_story_id : option Z;
  hit_parent_id : option Z;
  hit_tags : option (list string)
}.

Record AlgoliaSearchResult : Type := {
  hits : list AlgoliaHit;
  nbHits : Z;
  page : Z;
  nbPages : Z;
  hitsPerPage : Z
}.

(** The six listings of [getStoryIds] and [getStories]. *)
Inductive StoryKind : Type :=
| topstories | newstories | beststories | askstories | showstories | jobstories.

Definition kind_name (kind : StoryKind) : string :=
  match kind with
  | topstories => "topstories"
  | newstories => "newstories"
  | beststories => "beststories"
  | askstories => "askstories"
  | showstories => "showstories"
  | jobstories => "jobstories"
  end.

(** The object that [getCommentTree] returns: the five properties [id],
    [by], [text], [time] and [children].  [time] is copied from the item
    and is [undefined] when the item has none. *)
Inductive TreeNode : Type := mkTreeNode {
  node_id : Z;
  node_by : string;
  node_text : string;
  node_time : option Z;
  node_children : list TreeNode
}.

(** The result of [getStories]. *)
Record StoriesPage : Type := {
  items : list HNItem;
  total : Z
}.

(** The options of [searchHN]. *)
Record SearchOpts : Type := {
  opt_tags : option string;
  opt_page : option Z;
  opt_hitsPerPage : option Z;
  opt_numericFilters : option string
}.

(** [opts = {}]. *)
Definition no_opts : SearchOpts :=
  {| opt_tags := None; opt_page := None; opt_hitsPerPage := None;
     opt_numericFilters := None |}.

(* ===================================================================== *)
(** * The network *)
(* ===================================================================== *)

(** What [res.json()] gives: a rejection when the body is not JSON, else
    the parsed data, read at the type [T] the caller expects ([data as T]);
    the JSON value [null] is [None]. *)
Inductive Body (T : Type) : Type :=
| Malformed
| Json (data : option T).
Arguments Malformed {T}.
Arguments Json {T} data.

(** A response: [res.ok] and what [res.json()] would give. *)
Record Response (T : Type) : Type := {
  ok : bool;
  body : Body T
}.
Arguments ok {T} r.
Arguments body {T} r.

(** How [fetch(url)] settles: it rejects when there is no response. *)
Inductive FetchOutcome (T : Type) : Type :=
| NoResponse
| Responded (res : Response T).
Arguments NoResponse {T}.
Arguments Responded {T} res.

(** The remote services, by URL.  The body of a response is typed by the
    endpoint family, as the unchecked cast [data as T] supposes. *)
Record Network : Type := {
  item_endpoint : string -> FetchOutcome HNItem;
  user_endpoint : string -> FetchOutcome HNUser;
  ids_endpoint : string -> FetchOutcome (list Z);
  search_endpoint : string -> FetchOutcome AlgoliaSearchResult
}.

(** The payload types that [fetchJson<T>] is used at. *)
Class Payload (T : Type) : Type :=
  endpoint : Network -> string -> FetchOutcome T.

#[export] Instance Payload_HNItem : Payload HNItem := item_endpoint.
#[export] Instance Payload_HNUser : Payload HNUser := user_endpoint.
#[export] Instance Payload_ids : Payload (list Z) := ids_endpoint.
#[export] Instance Payload_search : Payload AlgoliaSearchResult := search_endpoint.

(** [fetch(url)]: one request is issued. *)
Definition fetch {T : Type} `{Payload T} (net : Network) (url : string)
  : Promise (Response T) :=
  ([url], match endpoint net url with
          | NoResponse => Rejected FetchFailed
          | Responded res => Fulfilled res
          end).

(** [res.json()]. *)
Definition json {T : Type} (res : Response T) : Promise (option T) :=
  match body res with
  | Malformed => reject SyntaxError
  | Json data => resolve data
  end.

(* ===================================================================== *)
(** * api.ts: helpers and the official API *)
(* ===================================================================== *)

Definition fetchJson {T : Type} `{Payload T} (net : Network) (url : string)
  : Promise (option T) :=
  let! res := fetch net url in
  if negb (ok res) then resolve None else
  let! data := json res in
  resolve data.

Definition getItem (net : Network) (id : Z) : Promise (option HNItem) :=
  fetchJson net (HN_BASE ++ "/item/" ++ String_of_number id ++ ".json")%string.

Definition getUser (net : Network) (username : string) : Promise (option HNUser) :=
  fetchJson net (HN_BASE ++ "/user/" ++ username ++ ".json")%string.

Definition getStoryIds (net : Network) (kind : StoryKind) : Promise (list Z) :=
  let! ids := fetchJson net (HN_BASE ++ "/" ++ kind_name kind ++ ".json")%string in
  resolve (nullish ids []).

(** [items.filter((i): i is HNItem => i !== null)]. *)
Definition filter_non_null {A : Type} (l : list (option A)) : list A :=
  omap (fun i => i) l.

Definition getStories (net : Network) (kind : StoryKind) (limit offset : Z)
  : Promise StoriesPage :=
  let! allIds := getStoryIds net kind in
  let pageIds := slice allIds offset (offset + limit) in
  let! items := Promise_all (map (fun id => getItem net id) pageIds) in
  resolve {| items := filter_non_null items;
             total := Z.of_nat (length allIds) |}.

(** [for (const child of childResults) if (child) children.push(child)]. *)
Definition push_children (children : list TreeNode)
  (childResults : list (option TreeNode)) : list TreeNode :=
  fold_left (fun children child =>
               match child with
               | Some c => children ++ [c]
               | None => children
               end) childResults children.

(** [getCommentTree(itemId, maxDepth, currentDepth)].  The recursive calls
    are at [currentDepth + 1] under [currentDepth < maxDepth], so the
    distance from [currentDepth] to [maxDepth + 1] decreases. *)
Equations? getCommentTree (net : Network) (itemId maxDepth currentDepth : Z)
  : Promise (option TreeNode)
  by wf (Z.to_nat (maxDepth + 1 - currentDepth)) lt :=
getCommentTree net itemId maxDepth currentDepth :=
  if currentDepth >? maxDepth then resolve None else
  let! item := getItem net itemId in
  match item with
  | None => resolve None
  | Some item =>
      let! children :=
        match item_kids item, Z_lt_dec currentDepth maxDepth with
        | Some kids, left Hlt =>
            let! childResults :=
              Promise_all
                (map (fun kid => getCommentTree net kid maxDepth (currentDepth + 1))
                   kids) in
            resolve (push_children [] childResults)
        | _, _ => resolve []
        end in
      resolve (Some {| node_id := item_id item;
                       node_by := nullish (item_by item) "[deleted]"%string;
                       node_text := nullish (item_text item) EmptyString;
                       node_time := item_time item;
                       node_children := children |})
  end.
Proof. lia. Qed.

(** The body of [getCommentTree] with its recursive calls handed to
    [self]: the function is the fixed point of this body
    ([getCommentTree_fixed_point] below). *)
Definition getCommentTree_body (self : Z -> Z -> Z -> Promise (option TreeNode))
  (net : Network) (itemId maxDepth currentDepth : Z) : Promise (option TreeNode) :=
  if currentDepth >? maxDepth then resolve None else
  let! item := getItem net itemId in
  match item with
  | None => resolve None
  | Some item =>
      let! children :=
        match item_kids item with
        | Some kids =>
            if currentDepth <? maxDepth then
              let! childResults :=
                Promise_all
                  (map (fun kid => self kid maxDepth (currentDepth + 1)) kids) in
              resolve (push_children [] childResults)
            else resolve []
        | None => resolve []
        end in
      resolve (Some {| node_id := item_id item;
                       node_by := nullish (item_by item) "[deleted]"%string;
                       node_text := nullish (item_text item) EmptyString;
                       node_time := item_time item;
                       node_children := children |})
  end.

(** The body unrolled [n] times over a [seed] that stands for the calls
    not yet resolved. *)
Fixpoint getCommentTree_unrolled (n : nat)
  (seed : Z -> Z -> Z -> Promise (option TreeNode)) (net : Network)
  : Z -> Z -> Z -> Promise (option TreeNode) :=
  match n with
  | O => seed
  | S n' => getCommentTree_body (getCommentTree_unrolled n' seed net) net
  end.

(* ===================================================================== *)
(** * api.ts: the Algolia search API *)
(* ===================================================================== *)

(** The [URLSearchParams] that [searchHN] builds. *)
Definition searchParams (query : string) (opts : SearchOpts) : URLSearchParams :=
  let params := [("query"%string, query)] in
  let params := match opt_tags opts with
                | Some tags =>
                    if truthy_string tags then params_set "tags" tags params
                    else params
                | None => params
                end in
  let params := match opt_page opts with
                | Some page => params_set "page" (String_of_number page) params
                | None => params
                end in
  let params := match opt_hitsPerPage opts with
                | Some hitsPerPage =>
                    params_set "hitsPerPage" (String_of_number hitsPerPage) params
                | None => params
                end in
  let params := match opt_numericFilters opts with
                | Some numericFilters =>
                    if truthy_string numericFilters
                    then params_set "numericFilters" numericFilters params
                    else params
                | None => params
                end in
  params.

Definition searchHN (net : Network) (query : string) (opts : SearchOpts)
  : Promise (option AlgoliaSearchResult) :=
  fetchJson net
    (ALGOLIA_BASE ++ "/search?" ++ params_toString (searchParams query opts))%string.

(* ===================================================================== *)
(** * tools.ts: the handlers that clamp their arguments *)
(* ===================================================================== *)

Definition clamp (value min max : Z) : Z :=
  Z.max min (Z.min max value).

(** What [tools.ts] imports from [api.ts]. *)
Record Api : Type := {
  api_getItem : Z -> Promise (option HNItem);
  api_getUser : string -> Promise (option HNUser);
  api_getStories : StoryKind -> Z -> Z -> Promise StoriesPage;
  api_getCommentTree : Z -> Z -> Z -> Promise (option TreeNode);
  api_searchHN : string -> SearchOpts -> Promise (option AlgoliaSearchResult)
}.

(** The imports bound to the client above. *)
Definition hn_api (net : Network) : Api :=
  {| api_getItem := getItem net;
     api_getUser := getUser net;
     api_getStories := getStories net;
     api_getCommentTree := getCommentTree net;
     api_searchHN := searchHN net |}.

(** The result of a tool call: the texts of its [content] entries (all of
    type ["text"]) and [isError], which is false when the property is not
    set. *)
Record ToolResult : Type := {
  content : list string;
  isError : bool
}.

(** An entry of [storyTools] (its description is left out). *)
Record StoryTool : Type := {
  tool_name : string;
  tool_title : string;
  tool_kind : StoryKind
}.

Definition storyTools : list StoryTool :=
  [ {| tool_name := "hn_top_stories"; tool_title := "Top Stories"; tool_kind := topstories |};
    {| tool_name := "hn_new_stories"; tool_title := "New Stories"; tool_kind := newstories |};
    {| tool_name := "hn_best_stories"; tool_title := "Best Stories"; tool_kind := beststories |};
    {| tool_name := "hn_ask_stories"; tool_title := "Ask HN Stories"; tool_kind := askstories |};
    {| tool_name := "hn_show_stories"; tool_title := "Show HN Stories"; tool_kind := showstories |};
    {| tool_name := "hn_job_stories"; tool_title := "Job Stories"; tool_kind := jobstories |} ].

Definition newline : string := String (ascii_of_nat 10) EmptyString.

Section Tools.

(** [new Date(ms).toISOString()] and [JSON.stringify(tree, null, 2)] are
    the platform's; [Date_toISOString] is the text of a time value that is
    a valid date. *)
Variable Date_toISOString : Z -> string.
Variable JSON_stringify : TreeNode -> string.

(** The largest time value of a [Date], in milliseconds: beyond it the
    date is invalid and [toISOString] throws a [RangeError]. *)
Definition MAX_TIME_VALUE : Z := 8640000000000000.

Definition formatTime (unix : option Z) : Settled string :=
  match unix with
  | None => Fulfilled "unknown"%string
  | Some u =>
      if u =? 0 then Fulfilled "unknown"%string
      else if Z.abs (u * 1000) <=? MAX_TIME_VALUE
           then Fulfilled (Date_toISOString (u * 1000))
           else Rejected RangeError
  end.

Definition formatStory (item : HNItem) : Settled string :=
  let parts :=
    [("[" ++ String_of_number (item_id item) ++ "] "
        ++ nullish (item_title item) "(no title)")%string] in
  let parts := match item_url item with
               | Some url => if truthy_string url
                             then parts ++ [("  URL: " ++ url)%string] else parts
               | None => parts
               end in
  let parts := match item_score item with
               | Some score => parts ++ [("  Score: " ++ String_of_number score)%string]
               | None => parts
               end in
  let parts := match item_by item with
               | Some by_ => if truthy_string by_
                             then parts ++ [("  By: " ++ by_)%string] else parts
               | None => parts
               end in
  let parts := match item_descendants item with
               | Some descendants =>
                   parts ++ [("  Comments: " ++ String_of_number descendants)%string]
               | None => parts
               end in
  match formatTime (item_time item) with
  | Fulfilled posted =>
      let parts := parts ++ [("  Posted: " ++ posted)%string] in
      Fulfilled (join newline parts)
  | Rejected e => Rejected e
  end.

(** What a story-listing handler answers once [getStories] has
    fulfilled; it throws when [formatStory] throws on an item. *)
Definition story_reply (tool : StoryTool) (safeOffset : Z) (page : StoriesPage)
  : Settled ToolResult :=
  if Nat.eqb (length (items page)) 0 then
    Fulfilled
      {| content := [("No stories found at offset " ++ String_of_number safeOffset
                        ++ ". Total available: " ++ String_of_number (total page)
                        ++ ".")%string];
         isError := false |}
  else
    let header :=
      (tool_title tool ++ " (" ++ String_of_number (safeOffset + 1) ++ "-"
         ++ String_of_number (safeOffset + Z.of_nat (length (items page)))
         ++ " of " ++ String_of_number (total page) ++ ")" ++ newline
         ++ repeat_string "=" 50)%string in
    match map_throwing formatStory (items page) with
    | Fulfilled stories =>
        let body := join (newline ++ newline) stories in
        Fulfilled {| content := [(header ++ newline ++ newline ++ body)%string];
                     isError := false |}
    | Rejected e => Rejected e
    end.

(** The handler of the six story-listing tools. *)
Definition story_handler (api : Api) (tool : StoryTool) (limit offset : Z)
  : Promise ToolResult :=
  let safeLimit := clamp limit 1 50 in
  let safeOffset := Z.max 0 offset in
  let! page := api_getStories api (tool_kind tool) safeLimit safeOffset in
  completed (story_reply tool safeOffset page).

(** What [hn_get_comments] answers once [getCommentTree] has
    fulfilled. *)
Definition comments_reply (id : Z) (tree : option TreeNode) : ToolResult :=
  match tree with
  | None =>
      {| content := [("Item " ++ String_of_number id
                        ++ " not found. Use hn_get_item first to verify the ID exists.")%string];
         isError := true |}
  | Some tree => {| content := [JSON_stringify tree]; isError := false |}
  end.

(** The handler of [hn_get_comments]; [getCommentTree] is called with
    two arguments, so [currentDepth] is its default 0. *)
Definition hn_get_comments (api : Api) (id depth : Z) : Promise ToolResult :=
  let safeDepth := clamp depth 1 5 in
  let! tree := api_getCommentTree api id safeDepth 0 in
  resolve (comments_reply id tree).

End Tools.

(** The value a settled promise of an optional result carries: [None]
    both for a rejection and for a fulfilment with [null]. *)
Definition fulfilled_value {A : Type} (s : Settled (option A)) : option A :=
  match s with
  | Fulfilled (Some a) => Some a
  | _ => None
  end.

(* ===================================================================== *)
(** * tools.ts: the other handlers *)
(* ===================================================================== *)

(** The double quote character of the template literals. *)
Definition dquote : string := String (ascii_of_nat 34) EmptyString.

Definition formatAlgoliaHit (hit : AlgoliaHit) : string :=
  let parts :=
    [("[" ++ hit_objectID hit ++ "] " ++ nullish (hit_title hit) "(comment)")%string] in
  let parts := match hit_url hit with
               | Some url => if truthy_string url
                             then parts ++ [("  URL: " ++ url)%string] else parts
               | None => parts
               end in
  let parts := match hit_points hit with
               | Some points => parts ++ [("  Points: " ++ String_of_number points)%string]
               | None => parts
               end in
  let parts := parts ++ [("  Author: " ++ hit_author hit)%string] in
  let parts := match hit_num_comments hit with
               | Some num_comments =>
                   parts ++ [("  Comments: " ++ String_of_number num_comments)%string]
               | None => parts
               end in
  let parts := parts ++ [("  Created: " ++ hit_created_at hit)%string] in
  join newline parts.

(** What [hn_search] answers once [searchHN] has fulfilled. *)
Definition search_reply (query : string) (result : option AlgoliaSearchResult)
  : ToolResult :=
  match result with
  | None =>
      {| content := ["Search request failed. Check your query and try again."%string];
         isError := true |}
  | Some result =>
      if Nat.eqb (length (hits result)) 0 then
        {| content := [("No results found for " ++ dquote ++ query ++ dquote
                          ++ ". Try broader search terms or different filters.")%string];
           isError := false |}
      else
        let header :=
          ("Search results for " ++ dquote ++ query ++ dquote ++ " (page "
             ++ String_of_number (page result + 1) ++ " of "
             ++ String_of_number (nbPages result) ++ ", "
             ++ String_of_number (nbHits result) ++ " total hits)" ++ newline
             ++ repeat_string "=" 50)%string in
        let body := join (newline ++ newline) (map formatAlgoliaHit (hits result)) in
        {| content := [(header ++ newline ++ newline ++ body)%string];
           isError := false |}
  end.

(** The handler of [hn_search]: [tags] and [numericFilters] are optional
    in the schema, [page] and [hitsPerPage] have defaults and are always
    there. *)
Definition hn_search (api : Api) (query : string) (tags : option string)
  (page hitsPerPage : Z) (numericFilters : option string) : Promise ToolResult :=
  let! result :=
    api_searchHN api query
      {| opt_tags := tags;
         opt_page := Some page;
         opt_hitsPerPage := Some (clamp hitsPerPage 1 50);
         opt_numericFilters := numericFilters |} in
  resolve (search_reply query result).

(** The object that [hn_get_user] prints; [about] is [null] when the user
    has none. *)
Record UserSummary : Type := {
  summary_id : string;
  summary_karma : Z;
  summary_created : string;
  summary_about : option string;
  summary_recentSubmissions : list Z
}.

Section MoreTools.

(** [new Date(ms).toISOString()] and [JSON.stringify(value, null, 2)] are
    the platform's. *)
Variable Date_toISOString : Z -> string.
Variable JSON_stringify_item : HNItem -> string.
Variable JSON_stringify_summary : UserSummary -> string.

(** What [hn_get_item] answers once [getItem] has fulfilled. *)
Definition item_reply (id : Z) (item : option HNItem) : ToolResult :=
  match item with
  | None =>
      {| content := [("Item " ++ String_of_number id
                        ++ " not found. IDs are positive integers. Use hn_top_stories to find valid IDs.")%string];
         isError := true |}
  | Some item => {| content := [JSON_stringify_item item]; isError := false |}
  end.

Definition hn_get_item (api : Api) (id : Z) : Promise ToolResult :=
  let! item := api_getItem api id in
  resolve (item_reply id item).

(** The [result] object of [hn_get_user]; building it throws when
    [formatTime] does. *)
Definition user_summary (user : HNUser) : Settled UserSummary :=
  match formatTime Date_toISOString (Some (user_created user)) with
  | Fulfilled created =>
      Fulfilled
        {| summary_id := user_id user;
           summary_karma := user_karma user;
           summary_created := created;
           summary_about := user_about user;
           summary_recentSubmissions := slice (nullish (user_submitted user) []) 0 20 |}
  | Rejected e => Rejected e
  end.

(** What [hn_get_user] answers once [getUser] has fulfilled. *)
Definition user_reply (username : string) (user : option HNUser)
  : Settled ToolResult :=
  match user with
  | None =>
      Fulfilled
        {| content := [("User " ++ dquote ++ username ++ dquote
                          ++ " not found. Usernames are case-sensitive. Try searching with hn_search instead.")%string];
           isError := true |}
  | Some user =>
      match user_summary user with
      | Fulfilled result =>
          Fulfilled {| content := [JSON_stringify_summary result]; isError := false |}
      | Rejected e => Rejected e
      end
  end.

Definition hn_get_user (api : Api) (username : string) : Promise ToolResult :=
  let! user := api_getUser api username in
  completed (user_reply username user).

End MoreTools.

(* ===================================================================== *)
(** * Measures used in the statements *)
(* ===================================================================== *)

(** The height of a tree: 0 for a node without children. *)
Fixpoint tree_height (node : TreeNode) : nat :=
  match node with
  | mkTreeNode _ _ _ _ children =>
      list_max (map (fun child => S (tree_height child)) children)
  end.

(** The number of nodes of the full tree of [depth] levels below the root
    in which every node has [width] children:
    [1 + width + ... + width ^ depth]. *)
Fixpoint fanout_bound (width : nat) (depth : nat) : nat :=
  match depth with
  | O => 1
  | S depth' => 1 + width * fanout_bound width depth'
  end.

(** The URL of an item, as [getItem] writes it. *)
Definition item_url_of (id : Z) : string :=
  (HN_BASE ++ "/item/" ++ String_of_number id ++ ".json")%string.

(* ===================================================================== *)
(** * A sample network *)
(* ===================================================================== *)

(** The concrete data that the examples below run on. *)

Definition found {T : Type} (data : T) : FetchOutcome T :=
  Responded {| ok := true; body := Json (Some data) |}.

Definition status_404 {T : Type} : FetchOutcome T :=
  Responded {| ok := false; body := Malformed |}.

Definition bare_item (id : Z) : HNItem :=
  {| item_id := id; item_type := None; item_by := None; item_time := None;
     item_text := None; item_url := None; item_title := None;
     item_score := None; item_descendants := None; item_kids := None;
     item_parent := None; item_parts := None; item_poll := None;
     item_dead := None; item_deleted := None |}.

(** A story with the two comments 2 and 3. *)
Definition item_1 : HNItem :=
  {| item_id := 1; item_type := Some story; item_by := Some "pg"%string;
     item_time := Some 1160418111; item_text := None;
     item_url := Some "http://ycombinator.com"%string;
     item_title := Some "Y Combinator"%string;
     item_score := Some 57; item_descendants := Some 2;
     item_kids := Some [2; 3];
     item_parent := None; item_parts := None; item_poll := None;
     item_dead := None; item_deleted := None |}.

(** A deleted comment: no author, no text, no children. *)
Definition item_3 : HNItem :=
  {| item_id := 3; item_type := Some comment; item_by := None;
     item_time := Some 1160419000; item_text := None; item_url := None;
     item_title := None; item_score := None; item_descendants := None;
     item_kids := None; item_parent := Some 1; item_parts := None;
     item_poll := None; item_dead := None; item_deleted := Some true |}.

(** A comment whose only child, 2, is not served. *)
Definition item_4 : HNItem :=
  {| item_id := 4; item_type := Some comment; item_by := Some "sama"%string;
     item_time := Some 1160420000; item_text := Some "agreed"%string;
     item_url := None; item_title := None; item_score := None;
     item_descendants := None; item_kids := Some [2]; item_parent := None;
     item_parts := None; item_poll := None; item_dead := None;
     item_deleted := None |}.

(** The nodes that items 3, 1 and 4 project to. *)
Definition node_3 : TreeNode :=
  {| node_id := 3; node_by := "[deleted]"%string; node_text := EmptyString;
     node_time := Some 1160419000; node_children := [] |}.

Definition node_1 (children : list TreeNode) : TreeNode :=
  {| node_id := 1; node_by := "pg"%string; node_text := EmptyString;
     node_time := Some 1160418111; node_children := children |}.

Definition node_4 : TreeNode :=
  {| node_id := 4; node_by := "sama"%string; node_text := "agreed"%string;
     node_time := Some 1160420000; node_children := [] |}.

Fixpoint lookup_url {V : Type} (table : list (string * V)) (default : V)
  (url : string) : V :=
  match table with
  | [] => default
  | (u, v) :: rest => if String.eqb u url then v else lookup_url rest default url
  end.

(** Items 1, 3, 4 and the stories 10, 11, 12 and 14 are served; the body
    of item 5 is not JSON; item 13 is the JSON value [null]; item 6 gets no
    response; every other item, 2 among them, is a 404.  The top stories
    are 10 to 14 and the other listings are 404s. *)
Definition sample_net : Network :=
  {| item_endpoint :=
       lookup_url
         [ ("https://hacker-news.firebaseio.com/v0/item/1.json"%string, found item_1);
           ("https://hacker-news.firebaseio.com/v0/item/3.json"%string, found item_3);
           ("https://hacker-news.firebaseio.com/v0/item/4.json"%string, found item_4);
           ("https://hacker-news.firebaseio.com/v0/item/5.json"%string,
            Responded {| ok := true; body := Malformed |});
           ("https://hacker-news.firebaseio.com/v0/item/6.json"%string, NoResponse);
           ("https://hacker-news.firebaseio.com/v0/item/10.json"%string, found (bare_item 10));
           ("https://hacker-news.firebaseio.com/v0/item/11.json"%string, found (bare_item 11));
           ("https://hacker-news.firebaseio.com/v0/item/12.json"%string, found (bare_item 12));
           ("https://hacker-news.firebaseio.com/v0/item/13.json"%string,
            Responded {| ok := true; body := Json None |});
           ("https://hacker-news.firebaseio.com/v0/item/14.json"%string, found (bare_item 14)) ]
         status_404;
     user_endpoint := fun _ => status_404;
     ids_endpoint :=
       lookup_url
         [ ("https://hacker-news.firebaseio.com/v0/topstories.json"%string,
            found [10; 11; 12; 13; 14]) ]
         status_404;
     search_endpoint := fun _ => status_404 |}.

(** An implementation of the imports of [tools.ts] that fetches nothing
    and answers with its arguments: the listing reports [limit] as its
    total, and the tree carries [maxDepth] as its id. *)
Definition echo_api : Api :=
  {| api_getItem := fun _ => resolve None;
     api_getUser := fun _ => resolve None;
     api_getStories := fun _ limit offset =>
       resolve {| items := [bare_item offset]; total := limit |};
     api_getCommentTree := fun itemId maxDepth currentDepth =>
       resolve (Some {| node_id := maxDepth; node_by := EmptyString;
                        node_text := EmptyString; node_time := Some currentDepth;
                        node_children := [] |});
     api_searchHN := fun _ _ => resolve None |}.

(** The same, but it rejects a limit outside [1, 50], a negative offset
    and a depth outside [1, 5]. *)
Definition strict_api : Api :=
  {| api_getItem := api_getItem echo_api;
     api_getUser := api_getUser echo_api;
     api_getStories := fun kind limit offset =>
       if (1 <=? limit) && (limit <=? 50) && (0 <=? offset)
       then api_getStories echo_api kind limit offset
       else reject FetchFailed;
     api_getCommentTree := fun itemId maxDepth currentDepth =>
       if (1 <=? maxDepth) && (maxDepth <=? 5)
       then api_getCommentTree echo_api itemId maxDepth currentDepth
       else reject FetchFailed;
     api_searchHN := api_searchHN echo_api |}.

(** A network whose front page lists item 6, which gets no response, and
    whose other listings get no response either; its items are those of
    [sample_net]. *)
Definition flaky_net : Network :=
  {| item_endpoint := item_endpoint sample_net;
     user_endpoint := fun _ => NoResponse;
     ids_endpoint :=
       lookup_url
         [ ("https://hacker-news.firebaseio.com/v0/topstories.json"%string,
            found [10; 6; 11]) ]
         NoResponse;
     search_endpoint := fun _ => NoResponse |}.

(** The first of the story tools, and what its handler answers over
    [echo_api] for an offset 0: the one story 0 of a total of 50. *)
Definition top_tool : StoryTool :=
  {| tool_name := "hn_top_stories"; tool_title := "Top Stories";
     tool_kind := topstories |}.

Definition echo_story_result : ToolResult :=
  {| content := [("Top Stories (1-1 of 50)" ++ newline ++ repeat_string "=" 50
                    ++ newline ++ newline
                    ++ "[0] (no title)" ++ newline ++ "  Posted: unknown")%string];
     isError := false |}.

(** A user whose creation time is beyond the dates of JavaScript. *)
Definition late_user : HNUser :=
  {| user_id := "late"; user_created := 10000000000000; user_karma := 1;
     user_about := None; user_submitted := None |}.

(** A network that serves [late_user] to every user request. *)
Definition late_net : Network :=
  {| item_endpoint := item_endpoint sample_net;
     user_endpoint := fun _ => found late_user;
     ids_endpoint := ids_endpoint sample_net;
     search_endpoint := search_endpoint sample_net |}.

(** A user with 25 submissions and no about text. *)
Definition sample_user : HNUser :=
  {| user_id := "pg"; user_created := 1160418092; user_karma := 157316;
     user_about := None;
     user_submitted := Some (map Z.of_nat (seq 1 25)) |}.

(** The summary of [sample_user] when dates are printed by
    [String_of_number]. *)
Definition sample_summary : UserSummary :=
  {| summary_id := "pg"; summary_karma := 157316;
     summary_created := String_of_number 1160418092000;
     summary_about := None;
     summary_recentSubmissions := map Z.of_nat (seq 1 20) |}.

(* ===================================================================== *)
(** * Promises: equations *)
(* ===================================================================== *)

Section PromiseFacts.

Context {A B : Type}.

Lemma settled_await (p : Promise A) (k : A -> Promise B) :
  settled (await p k) =
  match settled p with
  | Fulfilled a => settled (k a)
  | Rejected e => Rejected e
  end.
Proof.
  destruct p as [urls [a | e]]; simpl; [| reflexivity].
  destruct (k a); reflexivity.
Qed.

Lemma fetched_await (p : Promise A) (k : A -> Promise B) :
  fetched (await p k) =
  match settled p with
  | Fulfilled a => fetched p ++ fetched (k a)
  | Rejected e => fetched p
  end.
Proof.
  destruct p as [urls [a | e]]; simpl; [| reflexivity].
  destruct (k a); reflexivity.
Qed.

Lemma await_ext (p : Promise A) (k1 k2 : A -> Promise B) :
  (forall a, k1 a = k2 a) -> await p k1 = await p k2.
Proof.
  intros Hk. destruct p as [urls [a | e]]; simpl; [| reflexivity].
  rewrite Hk. reflexivity.
Qed.

Lemma all_settled_fulfilled (rs : list (Settled A)) (l : list A) :
  all_settled rs = Fulfilled l <-> rs = map Fulfilled l.
Proof.
  revert l. induction rs as [| r rs IH]; intros l; simpl.
  - split.
    + intros H. injection H as <-. reflexivity.
    + destruct l; [reflexivity | discriminate].
  - destruct r as [a | e].
    + destruct (all_settled rs) as [l' | e'] eqn:E.
      * split.
        -- intros H. injection H as <-. simpl. f_equal. apply IH. reflexivity.
        -- destruct l as [| a0 l0]; [discriminate |]. simpl. intros H.
           injection H as -> H. apply IH in H. congruence.
      * split; [discriminate |].
        destruct l as [| a0 l0]; [discriminate |]. simpl. intros H.
        injection H as _ H. apply IH in H. discriminate.
    + split; [discriminate |]. destruct l; discriminate.
Qed.

End PromiseFacts.

Lemma push_children_omap (acc : list TreeNode) (rs : list (option TreeNode)) :
  push_children acc rs = acc ++ omap (fun c => c) rs.
Proof.
  unfold push_children. revert acc.
  induction rs as [| r rs IH]; intros acc; cbn [fold_left].
  - symmetry. apply app_nil_r.
  - destruct r as [c |]; rewrite IH; [| reflexivity].
    rewrite <- app_assoc. reflexivity.
Qed.

(** What is left of the results of a [Promise.all] over optional values
    once the [null]s are dropped, from how the members settle. *)
Lemma all_settled_omap {K A : Type} (call : K -> Promise (option A))
  (keys : list K) (results : list (option A)) :
  all_settled (map settled (map call keys)) = Fulfilled results ->
  Forall (fun key => exists r, settled (call key) = Fulfilled r) keys /\
  omap (fun r => r) results
  = omap (fun key => fulfilled_value (settled (call key))) keys.
Proof.
  rewrite all_settled_fulfilled. revert results.
  induction keys as [| key keys IH]; intros rs H; cbn [map] in H.
  - destruct rs; [| discriminate]. split; [constructor | reflexivity].
  - destruct rs as [| r rs]; [discriminate |]. cbn [map] in H.
    injection H as Hkey Hrest. destruct (IH _ Hrest) as [Hall Heq].
    split.
    + constructor; [exists r; exact Hkey | exact Hall].
    + change (omap (fun r => r) (r :: rs))
        with (match r with Some c => c :: omap (fun r => r) rs
                         | None => omap (fun r => r) rs end).
      change (omap (fun key => fulfilled_value (settled (call key))) (key :: keys))
        with (match fulfilled_value (settled (call key)) with
              | Some c => c :: omap (fun key => fulfilled_value (settled (call key))) keys
              | None => omap (fun key => fulfilled_value (settled (call key))) keys
              end).
      rewrite Hkey, Heq. destruct r; reflexivity.
Qed.

(** The children that [Promise.all] and the loop keep. *)
Lemma kept_children {K : Type} (call : K -> Promise (option TreeNode))
  (kids : list K) (childResults : list (option TreeNode)) :
  all_settled (map settled (map call kids)) = Fulfilled childResults ->
  Forall (fun kid => exists r, settled (call kid) = Fulfilled r) kids /\
  push_children [] childResults
  = omap (fun kid => fulfilled_value (settled (call kid))) kids.
Proof.
  rewrite push_children_omap. cbn [app]. apply all_settled_omap.
Qed.

(* ===================================================================== *)
(** * fetchJson and the accessors *)
(* ===================================================================== *)

Lemma fetchJson_eq {T : Type} `{Payload T} (net : Network) (url : string) :
  fetchJson net url =
  ([url], match endpoint net url with
          | NoResponse => Rejected FetchFailed
          | Responded res =>
              if ok res then
                match body res with
                | Malformed => Rejected SyntaxError
                | Json data => Fulfilled data
                end
              else Fulfilled None
          end).
Proof.
  unfold fetchJson, fetch, json. simpl.
  destruct (endpoint net url) as [| [[|] [| data]]]; reflexivity.
Qed.

(* ===================================================================== *)
(** * getCommentTree: the recursion equation and what follows from it *)
(* ===================================================================== *)

Lemma getCommentTree_fixed_point (net : Network) (itemId maxDepth currentDepth : Z) :
  getCommentTree net itemId maxDepth currentDepth
  = getCommentTree_body (getCommentTree net) net itemId maxDepth currentDepth.
Proof.
  rewrite getCommentTree_equation_1. unfold getCommentTree_body.
  destruct (currentDepth >? maxDepth); [reflexivity |].
  apply await_ext. intros [item |]; [| reflexivity].
  destruct (item_kids item) as [kids |]; [| reflexivity].
  destruct (Z_lt_dec currentDepth maxDepth) as [Hlt | Hge];
    destruct (Z.ltb_spec currentDepth maxDepth); try lia; reflexivity.
Qed.

Lemma all_children_settle {K : Type} (call : K -> Promise (option TreeNode))
  (kids : list K) :
  Forall (fun kid => exists r, settled (call kid) = Fulfilled r) kids ->
  exists childResults,
    all_settled (map settled (map call kids)) = Fulfilled childResults.
Proof.
  induction 1 as [| kid kids [r Hr] _ [rs IH]]; cbn [map all_settled].
  - exists []. reflexivity.
  - exists (r :: rs). rewrite Hr, IH. reflexivity.
Qed.

(** The node that a call builds from the item it has fetched. *)
Lemma getCommentTree_of_item (net : Network) (itemId maxDepth currentDepth : Z)
  (item : HNItem) :
  currentDepth <= maxDepth ->
  settled (getItem net itemId) = Fulfilled (Some item) ->
  settled (getCommentTree net itemId maxDepth currentDepth) =
  match
    match item_kids item with
    | Some kids =>
        if currentDepth <? maxDepth then
          match all_settled
                  (map settled
                     (map (fun kid => getCommentTree net kid maxDepth (currentDepth + 1))
                        kids)) with
          | Fulfilled childResults => Fulfilled (push_children [] childResults)
          | Rejected e => Rejected e
          end
        else Fulfilled []
    | None => Fulfilled []
    end
  with
  | Fulfilled children =>
      Fulfilled (Some {| node_id := item_id item;
                         node_by := nullish (item_by item) "[deleted]"%string;
                         node_text := nullish (item_text item) EmptyString;
                         node_time := item_time item;
                         node_children := children |})
  | Rejected e => Rejected e
  end.
Proof.
  intros Hle Hitem. rewrite getCommentTree_fixed_point. unfold getCommentTree_body.
  destruct (Z.gtb_spec currentDepth maxDepth); [lia |].
  rewrite settled_await, Hitem, settled_await.
  destruct (item_kids item) as [kids |]; [| reflexivity].
  destruct (currentDepth <? maxDepth); [| reflexivity].
  rewrite settled_await. unfold Promise_all. cbn [settled snd].
  destruct (all_settled _); reflexivity.
Qed.

(** A call fulfils with a node exactly when it is within the depth bound,
    the item is there and every child call made has fulfilled; the node is
    then the projection of the item, over the children that are there. *)
Lemma getCommentTree_node (net : Network) (itemId maxDepth currentDepth : Z)
  (node : TreeNode) :
  settled (getCommentTree net itemId maxDepth currentDepth) = Fulfilled (Some node)
  <->
  currentDepth <= maxDepth /\
  exists item,
    settled (getItem net itemId) = Fulfilled (Some item) /\
    node = {| node_id := item_id item;
              node_by := nullish (item_by item) "[deleted]"%string;
              node_text := nullish (item_text item) EmptyString;
              node_time := item_time item;
              node_children := node_children node |} /\
    match item_kids item with
    | Some kids =>
        if currentDepth <? maxDepth then
          Forall (fun kid => exists r,
                    settled (getCommentTree net kid maxDepth (currentDepth + 1))
                    = Fulfilled r) kids /\
          node_children node
          = omap (fun kid => fulfilled_value
                    (settled (getCommentTree net kid maxDepth (currentDepth + 1)))) kids
        else node_children node = []
    | None => node_children node = []
    end.
Proof.
  split.
  - intros Hnode.
    assert (Hle : currentDepth <= maxDepth).
    { destruct (Z_le_gt_dec currentDepth maxDepth) as [Hle | Hgt]; [exact Hle |].
      rewrite getCommentTree_fixed_point in Hnode. unfold getCommentTree_body in Hnode.
      destruct (Z.gtb_spec currentDepth maxDepth); [discriminate | lia]. }
    split; [exact Hle |].
    destruct (settled (getItem net itemId)) as [[item |] | e] eqn:Hitem.
    + exists item. split; [reflexivity |].
      rewrite (getCommentTree_of_item _ _ _ _ item Hle Hitem) in Hnode.
      destruct (item_kids item) as [kids |].
      * destruct (currentDepth <? maxDepth).
        -- destruct (all_settled _) as [childResults | e] eqn:Hall; [| discriminate].
           injection Hnode as <-. cbn [node_children].
           apply kept_children in Hall. destruct Hall as [Hall Heq].
           rewrite Heq. repeat split; assumption.
        -- injection Hnode as <-. split; reflexivity.
      * injection Hnode as <-. split; reflexivity.
    + rewrite getCommentTree_fixed_point in Hnode. unfold getCommentTree_body in Hnode.
      destruct (currentDepth >? maxDepth); [discriminate |].
      rewrite settled_await, Hitem in Hnode. discriminate.
    + rewrite getCommentTree_fixed_point in Hnode. unfold getCommentTree_body in Hnode.
      destruct (currentDepth >? maxDepth); [discriminate |].
      rewrite settled_await, Hitem in Hnode. discriminate.
  - intros [Hle [item [Hitem [Hshape Hchildren]]]].
    rewrite (getCommentTree_of_item _ _ _ _ item Hle Hitem).
    destruct (item_kids item) as [kids |].
    + destruct (currentDepth <? maxDepth).
      * destruct Hchildren as [Hall Heq].
        destruct (all_children_settle _ _ Hall) as [childResults Hrs].
        rewrite Hrs. apply kept_children in Hrs. destruct Hrs as [_ Hpush].
        rewrite Hpush, <- Heq, <- Hshape. reflexivity.
      * rewrite <- Hchildren, <- Hshape. reflexivity.
    + rewrite <- Hchildren, <- Hshape. reflexivity.
Qed.

(* ===================================================================== *)
(** * The claims about getCommentTree *)
(* ===================================================================== *)

(** C1.  [getCommentTree] returns [null] if and only if
    [currentDepth > maxDepth] or fetching the root item returns [null];
    and when [currentDepth > maxDepth] it returns [null] at once, without
    having issued any fetch. *)
Theorem getCommentTree_absent_iff (net : Network) (rootId maxDepth currentDepth : Z) :
  (settled (getCommentTree net rootId maxDepth currentDepth) = Fulfilled None
   <-> currentDepth > maxDepth \/ settled (getItem net rootId) = Fulfilled None)
  /\ (currentDepth > maxDepth ->
      fetched (getCommentTree net rootId maxDepth currentDepth) = []
      /\ settled (getCommentTree net rootId maxDepth currentDepth) = Fulfilled None).
Proof.
  rewrite getCommentTree_fixed_point. unfold getCommentTree_body.
  destruct (Z.gtb_spec currentDepth maxDepth) as [Hgt | Hle].
  - split; [| intros _; split; reflexivity].
    split; [intros _; left; lia | reflexivity].
  - split; [| lia].
    rewrite settled_await.
    destruct (settled (getItem net rootId)) as [[item |] | e].
    + rewrite settled_await.
      split; [| intros [Hgt | Habs]; [lia | discriminate]].
      destruct (settled _); discriminate.
    + split; [intros _; right; reflexivity | reflexivity].
    + split; [discriminate | intros [Hgt | Habs]; [lia | discriminate]].
Qed.

Lemma getCommentTree_absent_iff_witness :
  fetched (getCommentTree sample_net 1 1 2) = []
  /\ settled (getCommentTree sample_net 1 1 2) = Fulfilled None.
Proof.
  apply (proj2 (getCommentTree_absent_iff sample_net 1 1 2)). lia.
Defined.

(** C2.  For a root item that has child ids and [maxDepth >= 1], at
    [currentDepth] 0, the children of the returned node are the nodes of
    the recursive calls on the child ids, at depth 1 and in the order of
    the child ids, and a child whose call returns [null] has no entry:
    the children are matched one by one by a subsequence [kept] of the
    child ids. *)
Theorem getCommentTree_children_in_order (net : Network) (rootId maxDepth : Z)
  (item : HNItem) (kids : list Z) (node : TreeNode) :
  1 <= maxDepth ->
  settled (getItem net rootId) = Fulfilled (Some item) ->
  item_kids item = Some kids ->
  settled (getCommentTree net rootId maxDepth 0) = Fulfilled (Some node) ->
  node_children node
  = omap (fun kid => fulfilled_value (settled (getCommentTree net kid maxDepth 1))) kids
  /\ Forall (fun kid => exists r,
               settled (getCommentTree net kid maxDepth 1) = Fulfilled r) kids
  /\ exists kept,
       sublist kept kids
       /\ Forall2 (fun kid child =>
                     settled (getCommentTree net kid maxDepth 1)
                     = Fulfilled (Some child)) kept (node_children node)
       /\ forall kid, In kid kids -> ~ In kid kept ->
                      settled (getCommentTree net kid maxDepth 1) = Fulfilled None.
Proof.
  intros Hdepth Hitem Hkids Hnode.
  apply getCommentTree_node in Hnode.
  destruct Hnode as [_ [item' [Hitem' [_ Hchildren]]]].
  rewrite Hitem in Hitem'. injection Hitem' as <-.
  rewrite Hkids in Hchildren.
  destruct (Z.ltb_spec 0 maxDepth); [| lia].
  change (0 + 1) with 1 in Hchildren. destruct Hchildren as [Hall Heq].
  split; [exact Heq |]. split; [exact Hall |].
  rewrite Heq. clear Heq Hkids Hitem.
  induction Hall as [| kid kids [r Hr] _ [kept [Hsub [Hmatch Hrest]]]].
  - exists []. repeat split; [constructor | constructor | intros kid []].
  - change (omap (fun kid => fulfilled_value
                    (settled (getCommentTree net kid maxDepth 1))) (kid :: kids))
      with (match fulfilled_value (settled (getCommentTree net kid maxDepth 1)) with
            | Some c => c :: omap (fun kid => fulfilled_value
                             (settled (getCommentTree net kid maxDepth 1))) kids
            | None => omap (fun kid => fulfilled_value
                        (settled (getCommentTree net kid maxDepth 1))) kids
            end).
    rewrite Hr. destruct r as [child |]; cbn [fulfilled_value].
    + exists (kid :: kept). split; [constructor; exact Hsub |].
      split; [constructor; [exact Hr | exact Hmatch] |].
      intros kid' [<- | Hin] Hout.
      * exfalso. apply Hout. left. reflexivity.
      * apply Hrest; [exact Hin |]. intros Hk. apply Hout. right. exact Hk.
    + exists kept. split; [constructor; exact Hsub |].
      split; [exact Hmatch |].
      intros kid' [<- | Hin] Hout; [exact Hr |].
      apply Hrest; assumption.
Qed.

Lemma getCommentTree_children_in_order_witness :
  node_children (node_1 [node_3])
  = omap (fun kid => fulfilled_value (settled (getCommentTree sample_net kid 1 1)))
      [2; 3]
  /\ Forall (fun kid => exists r,
               settled (getCommentTree sample_net kid 1 1) = Fulfilled r) [2; 3]
  /\ exists kept,
       sublist kept [2; 3]
       /\ Forall2 (fun kid child =>
                     settled (getCommentTree sample_net kid 1 1)
                     = Fulfilled (Some child)) kept (node_children (node_1 [node_3]))
       /\ forall kid, In kid [2; 3] -> ~ In kid kept ->
                      settled (getCommentTree sample_net kid 1 1) = Fulfilled None.
Proof.
  apply (getCommentTree_children_in_order sample_net 1 1 item_1 [2; 3]
           (node_1 [node_3])).
  - lia.
  - vm_compute. reflexivity.
  - reflexivity.
  - vm_compute. reflexivity.
Defined.

(** C3, as the code has it.  A call within the depth bound whose item has
    no child ids (its [kids] is missing or is the empty list), or whose
    depth budget is used up ([maxDepth <= currentDepth]), returns a node
    with an empty child sequence: so does a root without children for
    every [maxDepth >= 0], and a root with children for [maxDepth = 0].
    The child sequence of a returned node is empty in these cases and in
    one more, when every child call returns [null]. *)
Theorem getCommentTree_children_empty :
  (forall (net : Network) (itemId maxDepth currentDepth : Z) (item : HNItem),
      currentDepth <= maxDepth ->
      settled (getItem net itemId) = Fulfilled (Some item) ->
      item_kids item = None \/ item_kids item = Some [] \/ maxDepth <= currentDepth ->
      exists node,
        settled (getCommentTree net itemId maxDepth currentDepth)
        = Fulfilled (Some node)
        /\ node_children node = [])
  /\ (forall (net : Network) (itemId maxDepth currentDepth : Z) (item : HNItem)
             (node : TreeNode),
        settled (getItem net itemId) = Fulfilled (Some item) ->
        settled (getCommentTree net itemId maxDepth currentDepth)
        = Fulfilled (Some node) ->
        (node_children node = []
         <-> item_kids item = None
             \/ maxDepth <= currentDepth
             \/ exists kids,
                  item_kids item = Some kids
                  /\ Forall (fun kid =>
                               settled (getCommentTree net kid maxDepth
                                          (currentDepth + 1))
                               = Fulfilled None) kids)).
Proof.
  split.
  - intros net itemId maxDepth currentDepth item Hle Hitem Hleaf.
    rewrite (getCommentTree_of_item _ _ _ _ item Hle Hitem).
    destruct (item_kids item) as [kids |].
    + destruct Hleaf as [Hnone | [Hempty | Hdepth]]; [discriminate | |].
      * injection Hempty as ->.
        destruct (currentDepth <? maxDepth); eexists; split; reflexivity.
      * destruct (Z.ltb_spec currentDepth maxDepth); [lia |].
        eexists. split; reflexivity.
    + eexists. split; reflexivity.
  - intros net itemId maxDepth currentDepth item node Hitem Hnode.
    apply getCommentTree_node in Hnode.
    destruct Hnode as [Hle [item' [Hitem' [_ Hchildren]]]].
    rewrite Hitem in Hitem'. injection Hitem' as <-.
    destruct (item_kids item) as [kids |].
    + destruct (Z.ltb_spec currentDepth maxDepth) as [Hlt | Hge].
      * destruct Hchildren as [Hall Heq]. rewrite Heq. clear Heq. split.
        -- intros Hempty. right. right. exists kids. split; [reflexivity |].
           induction Hall as [| kid kids [r Hr] _ IH]; [constructor |].
           change (omap (fun kid => fulfilled_value
                     (settled (getCommentTree net kid maxDepth (currentDepth + 1))))
                     (kid :: kids))
             with (match fulfilled_value
                           (settled (getCommentTree net kid maxDepth (currentDepth + 1)))
                   with
                   | Some c => c :: omap (fun kid => fulfilled_value
                         (settled (getCommentTree net kid maxDepth (currentDepth + 1))))
                         kids
                   | None => omap (fun kid => fulfilled_value
                         (settled (getCommentTree net kid maxDepth (currentDepth + 1))))
                         kids
                   end) in Hempty.
           rewrite Hr in Hempty. destruct r as [c |]; [discriminate |].
           constructor; [exact Hr | apply IH; exact Hempty].
        -- intros [Hnone | [Hdepth | [kids' [Hkids Habsent]]]];
             [discriminate | lia |].
           injection Hkids as <-. clear Hall.
           induction Habsent as [| kid kids Hr _ IH]; [reflexivity |].
           change (omap (fun kid => fulfilled_value
                     (settled (getCommentTree net kid maxDepth (currentDepth + 1))))
                     (kid :: kids))
             with (match fulfilled_value
                           (settled (getCommentTree net kid maxDepth (currentDepth + 1)))
                   with
                   | Some c => c :: omap (fun kid => fulfilled_value
                         (settled (getCommentTree net kid maxDepth (currentDepth + 1))))
                         kids
                   | None => omap (fun kid => fulfilled_value
                         (settled (getCommentTree net kid maxDepth (currentDepth + 1))))
                         kids
                   end).
           rewrite Hr. exact IH.
      * split; [intros _; right; left; exact Hge | intros _; exact Hchildren].
    + split; [intros _; left; reflexivity | intros _; exact Hchildren].
Qed.

Lemma getCommentTree_children_empty_witness :
  exists node,
    settled (getCommentTree sample_net 1 0 0) = Fulfilled (Some node)
    /\ node_children node = [].
Proof.
  apply (proj1 getCommentTree_children_empty sample_net 1 0 0 item_1).
  - lia.
  - vm_compute. reflexivity.
  - right. right. lia.
Defined.

(** C3, as it is stated, fails: the comment 4 has a child id and
    [maxDepth = 1] leaves depth budget at the root, but its only child is
    not served and the returned node has no children. *)
Lemma getCommentTree_children_empty_counterexample :
  ~ (forall (net : Network) (itemId maxDepth currentDepth : Z) (item : HNItem)
            (node : TreeNode),
        settled (getItem net itemId) = Fulfilled (Some item) ->
        settled (getCommentTree net itemId maxDepth currentDepth)
        = Fulfilled (Some node) ->
        (node_children node = []
         <-> (item_kids item = None \/ item_kids item = Some [])
             \/ maxDepth <= currentDepth)).
Proof.
  intros Hclaim.
  assert (Hitem : settled (getItem sample_net 4) = Fulfilled (Some item_4))
    by (vm_compute; reflexivity).
  assert (Hnode : settled (getCommentTree sample_net 4 1 0) = Fulfilled (Some node_4))
    by (vm_compute; reflexivity).
  destruct (proj1 (Hclaim sample_net 4 1 0 item_4 node_4 Hitem Hnode) eq_refl)
    as [[Hnone | Hempty] | Hdepth]; [discriminate | discriminate | lia].
Qed.

(** C4.  A node returned by [getCommentTree] is made of the five
    properties [id], [by], [text], [time] and [children]; [id] and [time]
    are those of the fetched item, [by] is its author, or ["[deleted]"]
    when it has none, and [text] is its text, or the empty string when it
    has none. *)
Theorem getCommentTree_node_fields (net : Network) (itemId maxDepth currentDepth : Z)
  (node : TreeNode) :
  settled (getCommentTree net itemId maxDepth currentDepth) = Fulfilled (Some node) ->
  exists item,
    settled (getItem net itemId) = Fulfilled (Some item)
    /\ node = mkTreeNode (node_id node) (node_by node) (node_text node)
                (node_time node) (node_children node)
    /\ node_id node = item_id item
    /\ node_time node = item_time item
    /\ node_by node = match item_by item with
                      | Some author => author
                      | None => "[deleted]"%string
                      end
    /\ node_text node = match item_text item with
                        | Some text => text
                        | None => EmptyString
                        end.
Proof.
  intros Hnode. apply getCommentTree_node in Hnode.
  destruct Hnode as [_ [item [Hitem [Hshape _]]]].
  exists item. split; [exact Hitem |].
  rewrite Hshape. cbn [node_id node_by node_text node_time node_children].
  repeat split; reflexivity.
Qed.

Lemma getCommentTree_node_fields_witness :
  exists item,
    settled (getItem sample_net 3) = Fulfilled (Some item)
    /\ node_3 = mkTreeNode (node_id node_3) (node_by node_3) (node_text node_3)
                  (node_time node_3) (node_children node_3)
    /\ node_id node_3 = item_id item
    /\ node_time node_3 = item_time item
    /\ node_by node_3 = match item_by item with
                        | Some author => author
                        | None => "[deleted]"%string
                        end
    /\ node_text node_3 = match item_text item with
                          | Some text => text
                          | None => EmptyString
                          end.
Proof.
  apply (getCommentTree_node_fields sample_net 3 2 1 node_3).
  vm_compute. reflexivity.
Defined.

(** The body consults [self] only at [currentDepth + 1], with [maxDepth]
    as it is, and only when [currentDepth < maxDepth]. *)
Lemma getCommentTree_body_calls
  (self1 self2 : Z -> Z -> Z -> Promise (option TreeNode)) (net : Network)
  (itemId maxDepth currentDepth : Z) :
  (currentDepth < maxDepth ->
   forall kid, self1 kid maxDepth (currentDepth + 1)
               = self2 kid maxDepth (currentDepth + 1)) ->
  getCommentTree_body self1 net itemId maxDepth currentDepth
  = getCommentTree_body self2 net itemId maxDepth currentDepth.
Proof.
  intros Hsame. unfold getCommentTree_body.
  destruct (currentDepth >? maxDepth); [reflexivity |].
  apply await_ext. intros [item |]; [| reflexivity].
  destruct (item_kids item) as [kids |]; [| reflexivity].
  destruct (Z.ltb_spec currentDepth maxDepth) as [Hlt | Hge]; [| reflexivity].
  do 3 f_equal. apply map_ext. intros kid. apply Hsame. exact Hlt.
Qed.

(** C9.  [getCommentTree] terminates.  It is a total function that
    satisfies the recursion equation of the source; a recursive call is
    made only under [currentDepth < maxDepth], at [currentDepth + 1] and
    with [maxDepth] unchanged; hence unrolling the body more than
    [maxDepth - currentDepth] times reaches no further call, whatever
    stands for the calls beyond: the result is that of [getCommentTree]. *)
Theorem getCommentTree_terminates :
  (forall (net : Network) (itemId maxDepth currentDepth : Z),
      getCommentTree net itemId maxDepth currentDepth
      = getCommentTree_body (getCommentTree net) net itemId maxDepth currentDepth)
  /\ (forall (self1 self2 : Z -> Z -> Z -> Promise (option TreeNode))
             (net : Network) (itemId maxDepth currentDepth : Z),
        (currentDepth < maxDepth ->
         forall kid, self1 kid maxDepth (currentDepth + 1)
                     = self2 kid maxDepth (currentDepth + 1)) ->
        getCommentTree_body self1 net itemId maxDepth currentDepth
        = getCommentTree_body self2 net itemId maxDepth currentDepth)
  /\ (forall (n : nat) (seed : Z -> Z -> Z -> Promise (option TreeNode))
             (net : Network) (itemId maxDepth currentDepth : Z),
        (Z.to_nat (maxDepth - currentDepth) < n)%nat ->
        getCommentTree_unrolled n seed net itemId maxDepth currentDepth
        = getCommentTree net itemId maxDepth currentDepth).
Proof.
  split; [exact getCommentTree_fixed_point |].
  split; [exact getCommentTree_body_calls |].
  induction n as [| n IH]; intros seed net itemId maxDepth currentDepth Hn; [lia |].
  cbn [getCommentTree_unrolled]. rewrite getCommentTree_fixed_point.
  apply getCommentTree_body_calls. intros Hlt kid. apply IH. lia.
Qed.

Lemma getCommentTree_terminates_witness :
  getCommentTree_unrolled 2 (fun _ _ _ => reject FetchFailed) sample_net 1 1 0
  = getCommentTree sample_net 1 1 0.
Proof.
  apply (proj2 (proj2 getCommentTree_terminates)). vm_compute. lia.
Defined.

(* ===================================================================== *)
(** * The claims about getStories *)
(* ===================================================================== *)

Section Slice.

Context {A : Type}.
Implicit Types (l : list A) (start finish limit offset : Z).

Lemma slice_length l start finish :
  Z.of_nat (length (slice l start finish))
  = Z.max 0 (Z.min (relative_index (Z.of_nat (length l)) finish
                    - relative_index (Z.of_nat (length l)) start)
               (Z.of_nat (length l)
                - relative_index (Z.of_nat (length l)) start)).
Proof.
  unfold slice. rewrite length_take, length_drop.
  unfold relative_index.
  destruct (Z.ltb_spec start 0), (Z.ltb_spec finish 0); lia.
Qed.

Lemma slice_length_limit l offset limit :
  0 <= limit -> Z.of_nat (length (slice l offset (offset + limit))) <= limit.
Proof.
  intros Hlimit. rewrite slice_length. unfold relative_index.
  destruct (Z.ltb_spec offset 0), (Z.ltb_spec (offset + limit) 0); lia.
Qed.

Lemma slice_length_rest l offset finish :
  Z.of_nat (length (slice l offset finish))
  <= Z.max 0 (Z.of_nat (length l) - offset).
Proof.
  rewrite slice_length. unfold relative_index.
  destruct (Z.ltb_spec offset 0), (Z.ltb_spec finish 0); lia.
Qed.

Lemma slice_past_end l offset finish :
  Z.of_nat (length l) <= offset -> slice l offset finish = [].
Proof.
  intros Hoffset. apply length_zero_iff_nil.
  pose proof (slice_length_rest l offset finish). lia.
Qed.

Lemma slice_sublist l start finish : sublist (slice l start finish) l.
Proof.
  unfold slice. etransitivity; [apply sublist_take | apply sublist_drop].
Qed.

End Slice.

Lemma omap_length_le {A B : Type} (f : A -> option B) (l : list A) :
  (length (omap f l) <= length l)%nat.
Proof.
  induction l as [| a l IH]; [reflexivity |].
  change (omap f (a :: l))
    with (match f a with Some b => b :: omap f l | None => omap f l end).
  destruct (f a); simpl; lia.
Qed.

(** How [getStories] settles once the id list is there. *)
Lemma getStories_settled (net : Network) (kind : StoryKind) (limit offset : Z)
  (allIds : list Z) :
  settled (getStoryIds net kind) = Fulfilled allIds ->
  settled (getStories net kind limit offset) =
  match all_settled
          (map settled
             (map (fun id => getItem net id) (slice allIds offset (offset + limit))))
  with
  | Fulfilled items =>
      Fulfilled {| items := filter_non_null items;
                   total := Z.of_nat (length allIds) |}
  | Rejected e => Rejected e
  end.
Proof.
  intros Hids. unfold getStories.
  rewrite settled_await, Hids, settled_await. unfold Promise_all. cbn [settled snd].
  destruct (all_settled _); reflexivity.
Qed.

(** C5, as the code has it.  For every category, every [limit >= 0] and
    every offset, the page of [getStories] has at most [limit] items and
    at most [max(0, total - offset)], where [total] is the length of the
    id list of the category; its items are those of the ids of
    [allIds.slice(offset, offset + limit)] that resolve, in the order of
    the id list. *)
Theorem getStories_page_bounds (net : Network) (kind : StoryKind) (limit offset : Z)
  (allIds : list Z) (page : StoriesPage) :
  0 <= limit ->
  settled (getStoryIds net kind) = Fulfilled allIds ->
  settled (getStories net kind limit offset) = Fulfilled page ->
  Z.of_nat (length (items page)) <= limit
  /\ Z.of_nat (length (items page)) <= Z.max 0 (total page - offset)
  /\ total page = Z.of_nat (length allIds)
  /\ items page
     = omap (fun id => fulfilled_value (settled (getItem net id)))
         (slice allIds offset (offset + limit))
  /\ sublist (slice allIds offset (offset + limit)) allIds.
Proof.
  intros Hlimit Hids Hpage.
  rewrite (getStories_settled _ _ _ _ _ Hids) in Hpage.
  destruct (all_settled _) as [results | e] eqn:Hall; [| discriminate].
  injection Hpage as <-. cbn [items total].
  apply all_settled_omap in Hall. destruct Hall as [_ Heq].
  unfold filter_non_null. rewrite Heq.
  pose proof (omap_length_le
                (fun id => fulfilled_value (settled (getItem net id)))
                (slice allIds offset (offset + limit))) as Hlen.
  pose proof (slice_length_limit allIds offset limit Hlimit).
  pose proof (slice_length_rest allIds offset (offset + limit)).
  repeat split; try lia; try reflexivity. apply slice_sublist.
Qed.

Lemma getStories_page_bounds_witness :
  let page := {| items := [bare_item 11; bare_item 12]; total := 5 |} in
  Z.of_nat (length (items page)) <= 2
  /\ Z.of_nat (length (items page)) <= Z.max 0 (total page - 1)
  /\ total page = Z.of_nat (length [10; 11; 12; 13; 14])
  /\ items page
     = omap (fun id => fulfilled_value (settled (getItem sample_net id)))
         (slice [10; 11; 12; 13; 14] 1 (1 + 2))
  /\ sublist (slice [10; 11; 12; 13; 14] 1 (1 + 2)) [10; 11; 12; 13; 14].
Proof.
  apply (getStories_page_bounds sample_net topstories 2 1 [10; 11; 12; 13; 14]).
  - lia.
  - vm_compute. reflexivity.
  - vm_compute. reflexivity.
Defined.

(** C5, as it is stated, fails for a negative limit: with [limit = -1] and
    [offset = 0], [allIds.slice(0, -1)] is the id list without its last
    entry, and the page has three items. *)
Lemma getStories_page_bounds_counterexample :
  ~ (forall (net : Network) (kind : StoryKind) (limit offset : Z)
            (allIds : list Z) (page : StoriesPage),
        settled (getStoryIds net kind) = Fulfilled allIds ->
        settled (getStories net kind limit offset) = Fulfilled page ->
        Z.of_nat (length (items page)) <= limit
        /\ Z.of_nat (length (items page))
           <= Z.max 0 (Z.of_nat (length allIds) - offset)).
Proof.
  intros Hclaim.
  assert (Hids : settled (getStoryIds sample_net topstories)
                 = Fulfilled [10; 11; 12; 13; 14])
    by (vm_compute; reflexivity).
  assert (Hpage : settled (getStories sample_net topstories (-1) 0)
                  = Fulfilled {| items := [bare_item 10; bare_item 11; bare_item 12];
                                 total := 5 |})
    by (vm_compute; reflexivity).
  destruct (Hclaim sample_net topstories (-1) 0 _ _ Hids Hpage) as [Hlen _].
  cbn in Hlen. lia.
Qed.

(** C6.  For every category, limit and offset with [offset >= total], the
    page of [getStories] has no item and its [total] is the length of the
    id list; no item is fetched. *)
Theorem getStories_past_end (net : Network) (kind : StoryKind) (limit offset : Z)
  (allIds : list Z) :
  settled (getStoryIds net kind) = Fulfilled allIds ->
  Z.of_nat (length allIds) <= offset ->
  settled (getStories net kind limit offset)
  = Fulfilled {| items := []; total := Z.of_nat (length allIds) |}
  /\ fetched (getStories net kind limit offset) = fetched (getStoryIds net kind).
Proof.
  intros Hids Hoffset. unfold getStories.
  rewrite settled_await, fetched_await, Hids.
  rewrite (slice_past_end allIds offset (offset + limit) Hoffset).
  split; [reflexivity | apply app_nil_r].
Qed.

Lemma getStories_past_end_witness :
  settled (getStories sample_net topstories 10 5)
  = Fulfilled {| items := []; total := Z.of_nat (length [10; 11; 12; 13; 14]) |}
  /\ fetched (getStories sample_net topstories 10 5)
     = fetched (getStoryIds sample_net topstories).
Proof.
  apply (getStories_past_end sample_net topstories 10 5 [10; 11; 12; 13; 14]).
  - vm_compute. reflexivity.
  - vm_compute. discriminate.
Defined.

(* ===================================================================== *)
(** * The claims about fetchJson, the tool layer and searchHN *)
(* ===================================================================== *)

(** C7.  [fetchJson] returns [null], and does not throw, for every
    response whose status is not a success; and for a response with a
    success status whose body is not JSON, the failure of [res.json()]
    leaves [fetchJson] as a rejection. *)
Theorem fetchJson_status {T : Type} `{Payload T} (net : Network) (url : string)
  (res : Response T) :
  endpoint net url = Responded res ->
  (ok res = false -> fetchJson net url = ([url], Fulfilled None))
  /\ (ok res = true -> body res = Malformed ->
      fetchJson net url = ([url], Rejected SyntaxError)).
Proof.
  intros Hres. rewrite fetchJson_eq, Hres.
  split.
  - intros ->. reflexivity.
  - intros -> ->. reflexivity.
Qed.

Lemma fetchJson_status_witness :
  fetchJson (T := HNItem) sample_net
    "https://hacker-news.firebaseio.com/v0/item/2.json"
  = (["https://hacker-news.firebaseio.com/v0/item/2.json"%string], Fulfilled None)
  /\ fetchJson (T := HNItem) sample_net
       "https://hacker-news.firebaseio.com/v0/item/5.json"
     = (["https://hacker-news.firebaseio.com/v0/item/5.json"%string],
        Rejected SyntaxError).
Proof.
  split.
  - apply (proj1 (fetchJson_status (T := HNItem) sample_net
                    "https://hacker-news.firebaseio.com/v0/item/2.json"
                    {| ok := false; body := Malformed |} eq_refl)).
    reflexivity.
  - apply (proj2 (fetchJson_status (T := HNItem) sample_net
                    "https://hacker-news.firebaseio.com/v0/item/5.json"
                    {| ok := true; body := Malformed |} eq_refl));
      reflexivity.
Defined.

Lemma clamp_range (value min max : Z) :
  min <= max -> min <= clamp value min max <= max.
Proof. unfold clamp. lia. Qed.

(** C8.  Whatever the limit, the offset and the depth are, a story-listing
    handler calls [getStories] once, with the limit clamped into [1, 50],
    that is [max(1, min(50, limit))], and the offset clamped to be not
    negative, that is [max(0, offset)]; and the comment handler calls
    [getCommentTree] once, with the depth clamped into [1, 5], that is
    [max(1, min(5, depth))].  Each handler is its call of the API at these
    arguments followed by the reply, and two implementations of the API
    that agree at the arguments in these ranges give the same handlers. *)
Theorem handlers_clamp_arguments :
  (forall (Date_toISOString : Z -> string) (api : Api) (tool : StoryTool)
          (limit offset : Z),
      exists safeLimit safeOffset,
        safeLimit = Z.max 1 (Z.min 50 limit)
        /\ safeOffset = Z.max 0 offset
        /\ 1 <= safeLimit <= 50 /\ 0 <= safeOffset
        /\ story_handler Date_toISOString api tool limit offset
           = await (api_getStories api (tool_kind tool) safeLimit safeOffset)
               (fun page =>
                  completed (story_reply Date_toISOString tool safeOffset page)))
  /\ (forall (JSON_stringify : TreeNode -> string) (api : Api) (id depth : Z),
        exists safeDepth,
          safeDepth = Z.max 1 (Z.min 5 depth)
          /\ 1 <= safeDepth <= 5
          /\ hn_get_comments JSON_stringify api id depth
             = await (api_getCommentTree api id safeDepth 0)
                 (fun tree => resolve (comments_reply JSON_stringify id tree)))
  /\ (forall (Date_toISOString : Z -> string) (api1 api2 : Api) (tool : StoryTool)
             (limit offset : Z),
        (forall kind safeLimit safeOffset,
            1 <= safeLimit <= 50 -> 0 <= safeOffset ->
            api_getStories api1 kind safeLimit safeOffset
            = api_getStories api2 kind safeLimit safeOffset) ->
        story_handler Date_toISOString api1 tool limit offset
        = story_handler Date_toISOString api2 tool limit offset)
  /\ (forall (JSON_stringify : TreeNode -> string) (api1 api2 : Api) (id depth : Z),
        (forall itemId safeDepth currentDepth,
            1 <= safeDepth <= 5 ->
            api_getCommentTree api1 itemId safeDepth currentDepth
            = api_getCommentTree api2 itemId safeDepth currentDepth) ->
        hn_get_comments JSON_stringify api1 id depth
        = hn_get_comments JSON_stringify api2 id depth).
Proof.
  split; [| split; [| split]].
  - intros toISO api tool limit offset.
    exists (Z.max 1 (Z.min 50 limit)), (Z.max 0 offset).
    split; [reflexivity |]. split; [reflexivity |].
    split; [lia |]. split; [lia | reflexivity].
  - intros stringify api id depth.
    exists (Z.max 1 (Z.min 5 depth)).
    split; [reflexivity |]. split; [lia | reflexivity].
  - intros toISO api1 api2 tool limit offset Hsame. unfold story_handler.
    rewrite Hsame; [reflexivity | apply clamp_range; lia | lia].
  - intros stringify api1 api2 id depth Hsame. unfold hn_get_comments.
    rewrite Hsame; [reflexivity | apply clamp_range; lia].
Qed.

Lemma handlers_clamp_arguments_witness :
  story_handler String_of_number echo_api
    {| tool_name := "hn_top_stories"; tool_title := "Top Stories";
       tool_kind := topstories |} 1000 (-7)
  = story_handler String_of_number strict_api
      {| tool_name := "hn_top_stories"; tool_title := "Top Stories";
         tool_kind := topstories |} 1000 (-7)
  /\ hn_get_comments node_by echo_api 8863 0
     = hn_get_comments node_by strict_api 8863 0.
Proof.
  split.
  - apply (proj1 (proj2 (proj2 handlers_clamp_arguments))).
    intros kind safeLimit safeOffset Hlimit Hoffset. cbn.
    destruct (Z.leb_spec 1 safeLimit), (Z.leb_spec safeLimit 50),
      (Z.leb_spec 0 safeOffset); try lia; reflexivity.
  - apply (proj2 (proj2 (proj2 handlers_clamp_arguments))).
    intros itemId safeDepth currentDepth Hdepth. cbn.
    destruct (Z.leb_spec 1 safeDepth), (Z.leb_spec safeDepth 5);
      try lia; reflexivity.
Defined.

(** C10.  The request of [searchHN] always carries [query]; it carries
    [page] and [hitsPerPage] exactly when they are given (a page 0 is
    carried, as ["0"]); and it carries [tags] and [numericFilters] only
    when they are given and are not the empty string. *)
Theorem searchHN_request (net : Network) (query : string) (opts : SearchOpts) :
  fetched (searchHN net query opts)
  = [(ALGOLIA_BASE ++ "/search?" ++ params_toString (searchParams query opts))%string]
  /\ params_get "query" (searchParams query opts) = Some query
  /\ params_get "page" (searchParams query opts)
     = option_map String_of_number (opt_page opts)
  /\ params_get "hitsPerPage" (searchParams query opts)
     = option_map String_of_number (opt_hitsPerPage opts)
  /\ params_get "tags" (searchParams query opts)
     = match opt_tags opts with
       | None => None
       | Some EmptyString => None
       | Some tags => Some tags
       end
  /\ params_get "numericFilters" (searchParams query opts)
     = match opt_numericFilters opts with
       | None => None
       | Some EmptyString => None
       | Some numericFilters => Some numericFilters
       end.
Proof.
  split.
  - unfold searchHN. rewrite fetchJson_eq. reflexivity.
  - destruct opts as [[[| c tags] |] [page |] [hitsPerPage |] [[| c' filters] |]];
      cbn; repeat split; reflexivity.
Qed.

(* ===================================================================== *)
(** * The scenarios of the specification, run on the sample network *)
(* ===================================================================== *)

(** Root 1 has the children 2 and 3, [maxDepth = 1]; the fetch of 2 is a
    404 and 3 is a leaf: the root node has the one child 3. *)
Example scenario_comment_tree :
  getCommentTree sample_net 1 1 0
  = ([ "https://hacker-news.firebaseio.com/v0/item/1.json"%string;
       "https://hacker-news.firebaseio.com/v0/item/2.json"%string;
       "https://hacker-news.firebaseio.com/v0/item/3.json"%string ],
     Fulfilled (Some (node_1 [node_3]))).
Proof. vm_compute. reflexivity. Qed.

(** With [maxDepth = 0] the root is fetched and its children are not. *)
Example scenario_depth_zero :
  getCommentTree sample_net 1 0 0
  = ([ "https://hacker-news.firebaseio.com/v0/item/1.json"%string ],
     Fulfilled (Some (node_1 []))).
Proof. vm_compute. reflexivity. Qed.

(** The body of item 5 is not JSON: [getItem] rejects. *)
Example scenario_malformed_item :
  getItem sample_net 5
  = ([ "https://hacker-news.firebaseio.com/v0/item/5.json"%string ],
     Rejected SyntaxError).
Proof. vm_compute. reflexivity. Qed.

(** The listing is 10 to 14: [getStories(category, 2, 1)] gives the items
    11 and 12 and the total 5. *)
Example scenario_stories_page :
  getStories sample_net topstories 2 1
  = ([ "https://hacker-news.firebaseio.com/v0/topstories.json"%string;
       "https://hacker-news.firebaseio.com/v0/item/11.json"%string;
       "https://hacker-news.firebaseio.com/v0/item/12.json"%string ],
     Fulfilled {| items := [bare_item 11; bare_item 12]; total := 5 |}).
Proof. vm_compute. reflexivity. Qed.

(** A listing that is not served is the empty listing. *)
Example scenario_listing_absent :
  getStories sample_net jobstories 10 0
  = ([ "https://hacker-news.firebaseio.com/v0/jobstories.json"%string ],
     Fulfilled {| items := []; total := 0 |}).
Proof. vm_compute. reflexivity. Qed.

(** A search with no options sends the query alone; with a page 0 and an
    empty tag filter it sends the page and no tags. *)
Example scenario_search_default :
  fetched (searchHN sample_net "rust lang" no_opts)
  = [ "https://hn.algolia.com/api/v1/search?query=rust+lang"%string ].
Proof. vm_compute. reflexivity. Qed.

Example scenario_search_page_zero :
  searchParams "rust"
    {| opt_tags := Some EmptyString; opt_page := Some 0;
       opt_hitsPerPage := Some 10; opt_numericFilters := None |}
  = [ ("query", "rust"); ("page", "0"); ("hitsPerPage", "10") ]%string.
Proof. vm_compute. reflexivity. Qed.

(** The handlers over the client: a limit 0 and an offset -3 ask for the
    first story, and a depth 9 asks for the tree of depth 5. *)
Example scenario_story_handler (Date_toISOString : Z -> string) :
  Forall (fun tool =>
            tool_kind tool = topstories ->
            settled (story_handler Date_toISOString (hn_api sample_net) tool 0 (-3))
            = story_reply Date_toISOString tool 0
                {| items := [bare_item 10]; total := 5 |})
    storyTools.
Proof.
  unfold storyTools.
  repeat (apply List.Forall_cons; [intros Hkind; try discriminate Hkind |]);
    [| apply List.Forall_nil].
  unfold story_handler. rewrite settled_await.
  replace (settled (api_getStories (hn_api sample_net) topstories
                      (clamp 0 1 50) (Z.max 0 (-3))))
    with (Fulfilled {| items := [bare_item 10]; total := 5 |})
    by (vm_compute; reflexivity).
  reflexivity.
Qed.

Example scenario_comments_handler (JSON_stringify : TreeNode -> string) :
  settled (hn_get_comments JSON_stringify (hn_api sample_net) 1 9)
  = Fulfilled {| content := [JSON_stringify (node_1 [node_3])]; isError := false |}.
Proof.
  unfold hn_get_comments. rewrite settled_await.
  replace (settled (api_getCommentTree (hn_api sample_net) 1 (clamp 9 1 5) 0))
    with (Fulfilled (Some (node_1 [node_3])))
    by (vm_compute; reflexivity).
  reflexivity.
Qed.

(* ===================================================================== *)
(** * Further properties: the fetcher and the listing *)
(* ===================================================================== *)

(** X1.  [fetchJson] issues exactly one request, to the URL it is given.
    It rejects exactly when there is no response or when a response with a
    success status has a body that is not JSON, and it returns [null]
    exactly when the status is not a success or the body is the JSON value
    [null]. *)
Theorem fetchJson_outcome {T : Type} `{Payload T} (net : Network) (url : string) :
  fetched (fetchJson net url) = [url]
  /\ ((exists e, settled (fetchJson net url) = Rejected e)
      <-> endpoint net url = NoResponse
          \/ exists res, endpoint net url = Responded res
                         /\ ok res = true /\ body res = Malformed)
  /\ (settled (fetchJson net url) = Fulfilled None
      <-> exists res, endpoint net url = Responded res
                      /\ (ok res = false \/ body res = Json None)).
Proof.
  rewrite fetchJson_eq. cbn [fetched settled fst snd].
  split; [reflexivity |].
  destruct (endpoint net url) as [| [[|] [| [data |]]]]; cbn [ok body].
  - split; split.
    + intros _. left. reflexivity.
    + intros _. exists FetchFailed. reflexivity.
    + discriminate.
    + intros [res [Hres _]]. discriminate.
  - split; split.
    + intros _. right. eexists. repeat split.
    + intros _. exists SyntaxError. reflexivity.
    + discriminate.
    + intros [res [Hres [Hok | Hbody]]]; injection Hres as <-; discriminate.
  - split; split.
    + intros [e He]. discriminate.
    + intros [Hno | [res [Hres [_ Hbody]]]]; [discriminate |].
      injection Hres as <-. discriminate.
    + discriminate.
    + intros [res [Hres [Hok | Hbody]]]; injection Hres as <-; discriminate.
  - split; split.
    + intros [e He]. discriminate.
    + intros [Hno | [res [Hres [_ Hbody]]]]; [discriminate |].
      injection Hres as <-. discriminate.
    + intros _. eexists. split; [reflexivity |]. right. reflexivity.
    + reflexivity.
  - split; split.
    + intros [e He]. discriminate.
    + intros [Hno | [res [Hres [Hok _]]]]; [discriminate |].
      injection Hres as <-. discriminate.
    + intros _. eexists. split; [reflexivity |]. left. reflexivity.
    + reflexivity.
  - split; split.
    + intros [e He]. discriminate.
    + intros [Hno | [res [Hres [Hok _]]]]; [discriminate |].
      injection Hres as <-. discriminate.
    + intros _. eexists. split; [reflexivity |]. left. reflexivity.
    + reflexivity.
  - split; split.
    + intros [e He]. discriminate.
    + intros [Hno | [res [Hres [Hok _]]]]; [discriminate |].
      injection Hres as <-. discriminate.
    + intros _. eexists. split; [reflexivity |]. left. reflexivity.
    + reflexivity.
Qed.

Lemma getItem_requests (net : Network) (id : Z) :
  fetched (getItem net id) = [item_url_of id].
Proof. unfold getItem. rewrite fetchJson_eq. reflexivity. Qed.

Lemma getStoryIds_eq (net : Network) (kind : StoryKind) :
  getStoryIds net kind =
  ([(HN_BASE ++ "/" ++ kind_name kind ++ ".json")%string],
   match settled (fetchJson (T := list Z) net
                    (HN_BASE ++ "/" ++ kind_name kind ++ ".json")%string) with
   | Fulfilled ids => Fulfilled (nullish ids [])
   | Rejected e => Rejected e
   end).
Proof.
  unfold getStoryIds. rewrite fetchJson_eq. cbn [settled snd].
  destruct (endpoint net _) as [| [[|] [| data]]]; reflexivity.
Qed.

(** X2.  [getStoryIds] turns absence into the empty listing: when the
    listing endpoint answers with a status that is not a success, or with
    the JSON value [null], the result is the empty id list, after the one
    request. *)
Theorem getStoryIds_absent_is_empty (net : Network) (kind : StoryKind)
  (res : Response (list Z)) :
  ids_endpoint net (HN_BASE ++ "/" ++ kind_name kind ++ ".json")%string
  = Responded res ->
  ok res = false \/ body res = Json None ->
  getStoryIds net kind
  = ([(HN_BASE ++ "/" ++ kind_name kind ++ ".json")%string], Fulfilled []).
Proof.
  intros Hres Habsent. rewrite getStoryIds_eq, fetchJson_eq.
  unfold endpoint, Payload_ids. rewrite Hres. cbn [settled snd].
  destruct Habsent as [-> | ->]; [reflexivity |].
  destruct (ok res); reflexivity.
Qed.

Lemma getStoryIds_absent_is_empty_witness :
  getStoryIds sample_net jobstories
  = ([(HN_BASE ++ "/" ++ kind_name jobstories ++ ".json")%string], Fulfilled []).
Proof.
  apply (getStoryIds_absent_is_empty sample_net jobstories
           {| ok := false; body := Malformed |}).
  - reflexivity.
  - left. reflexivity.
Defined.

Lemma all_settled_rejected {A : Type} (rs : list (Settled A)) :
  (exists e, all_settled rs = Rejected e)
  <-> Exists (fun r => exists e, r = Rejected e) rs.
Proof.
  induction rs as [| r rs IH]; cbn [all_settled].
  - split; [intros [e He]; discriminate | intros Hex; inversion Hex].
  - destruct r as [a | e].
    + destruct (all_settled rs) as [l | e'].
      * split; [intros [e He]; discriminate |].
        intros Hex. inversion Hex as [? ? [e He] | ? ? Hrest]; [discriminate |].
        apply IH in Hrest. destruct Hrest as [e He]. discriminate.
      * split.
        -- intros _. apply Exists_cons_tl. apply IH. exists e'. reflexivity.
        -- intros _. exists e'. reflexivity.
    + split.
      * intros _. apply Exists_cons_hd. exists e. reflexivity.
      * intros _. exists e. reflexivity.
Qed.

Lemma Exists_settled_map {K A : Type} (call : K -> Promise A) (keys : list K) :
  Exists (fun r => exists e, r = Rejected e) (map settled (map call keys))
  <-> Exists (fun key => exists e, settled (call key) = Rejected e) keys.
Proof.
  induction keys as [| key keys IH]; cbn [map].
  - split; intros Hex; inversion Hex.
  - split; intros Hex; inversion Hex as [? ? Hhd | ? ? Htl].
    + apply Exists_cons_hd. exact Hhd.
    + apply Exists_cons_tl. apply IH. exact Htl.
    + apply Exists_cons_hd. exact Hhd.
    + apply Exists_cons_tl. apply IH. exact Htl.
Qed.

(** X3.  [getStories] has no partial result.  When the listing fetch
    rejects, [getStories] rejects with the same reason and no item is
    fetched; when the listing is there, [getStories] rejects exactly when
    the fetch of one of the ids of the page rejects. *)
Theorem getStories_rejects (net : Network) (kind : StoryKind) (limit offset : Z) :
  (forall e,
      settled (getStoryIds net kind) = Rejected e ->
      getStories net kind limit offset = (fetched (getStoryIds net kind), Rejected e))
  /\ (forall allIds,
        settled (getStoryIds net kind) = Fulfilled allIds ->
        ((exists e, settled (getStories net kind limit offset) = Rejected e)
         <-> Exists (fun id => exists e, settled (getItem net id) = Rejected e)
               (slice allIds offset (offset + limit)))).
Proof.
  split.
  - intros e Hids. unfold getStories.
    destruct (getStoryIds net kind) as [urls [ids | e']]; cbn in Hids; [discriminate |].
    injection Hids as ->. reflexivity.
  - intros allIds Hids. rewrite (getStories_settled _ _ _ _ _ Hids).
    rewrite <- Exists_settled_map, <- all_settled_rejected.
    destruct (all_settled _) as [results | e].
    + split; intros [e He]; discriminate.
    + split; intros _; exists e; reflexivity.
Qed.

Lemma getStories_rejects_witness :
  getStories flaky_net beststories 10 0
  = (fetched (getStoryIds flaky_net beststories), Rejected FetchFailed)
  /\ ((exists e, settled (getStories flaky_net topstories 2 0) = Rejected e)
      <-> Exists (fun id => exists e, settled (getItem flaky_net id) = Rejected e)
            (slice [10; 6; 11] 0 (0 + 2))).
Proof.
  split.
  - apply (proj1 (getStories_rejects flaky_net beststories 10 0)).
    vm_compute. reflexivity.
  - apply (proj2 (getStories_rejects flaky_net topstories 2 0)).
    vm_compute. reflexivity.
Defined.

Lemma item_requests (net : Network) (ids : list Z) :
  concat (map fetched (map (fun id => getItem net id) ids)) = map item_url_of ids.
Proof.
  induction ids as [| id ids IH]; [reflexivity |].
  cbn [map concat]. rewrite getItem_requests, IH. reflexivity.
Qed.

(** X4.  Once the listing is there, the requests of [getStories] are the
    one for the listing followed by one per id of the page, in the order
    of the page, whether or not the items resolve; for a limit that is not
    negative these are at most [1 + limit] requests. *)
Theorem getStories_requests (net : Network) (kind : StoryKind) (limit offset : Z)
  (allIds : list Z) :
  settled (getStoryIds net kind) = Fulfilled allIds ->
  fetched (getStories net kind limit offset)
  = (HN_BASE ++ "/" ++ kind_name kind ++ ".json")%string
    :: map item_url_of (slice allIds offset (offset + limit))
  /\ (0 <= limit ->
      Z.of_nat (length (fetched (getStories net kind limit offset))) <= 1 + limit).
Proof.
  intros Hids.
  assert (Hfetched :
    fetched (getStories net kind limit offset)
    = (HN_BASE ++ "/" ++ kind_name kind ++ ".json")%string
      :: map item_url_of (slice allIds offset (offset + limit))).
  { unfold getStories. rewrite fetched_await, Hids, fetched_await.
    rewrite getStoryIds_eq. unfold Promise_all. cbn [fetched settled fst snd].
    rewrite item_requests.
    destruct (all_settled _); cbn [resolve fst app]; [| reflexivity].
    rewrite app_nil_r. reflexivity. }
  split; [exact Hfetched |].
  intros Hlimit. rewrite Hfetched. cbn [length]. rewrite length_map.
  pose proof (slice_length_limit allIds offset limit Hlimit). lia.
Qed.

Lemma getStories_requests_witness :
  fetched (getStories flaky_net topstories 2 0)
  = (HN_BASE ++ "/" ++ kind_name topstories ++ ".json")%string
    :: map item_url_of (slice [10; 6; 11] 0 (0 + 2))
  /\ Z.of_nat (length (fetched (getStories flaky_net topstories 2 0))) <= 1 + 2.
Proof.
  assert (Hids : settled (getStoryIds flaky_net topstories) = Fulfilled [10; 6; 11])
    by (vm_compute; reflexivity).
  split.
  - apply (proj1 (getStories_requests flaky_net topstories 2 0 [10; 6; 11] Hids)).
  - apply (proj2 (getStories_requests flaky_net topstories 2 0 [10; 6; 11] Hids)).
    lia.
Defined.

Lemma slice_window {A : Type} (l : list A) (start count : Z) :
  0 <= start -> 0 <= count ->
  slice l start (start + count)
  = take (Z.to_nat count) (drop (Z.to_nat start) l).
Proof.
  intros Hstart Hcount. unfold slice, relative_index.
  destruct (Z.ltb_spec start 0); [lia |].
  destruct (Z.ltb_spec (start + count) 0); [lia |].
  destruct (Z_le_gt_dec (Z.of_nat (length l)) start) as [Hout | Hin].
  - rewrite !(drop_ge l) by lia. rewrite !take_nil. reflexivity.
  - replace (Z.to_nat (Z.min start (Z.of_nat (length l)))) with (Z.to_nat start) by lia.
    destruct (Z_le_gt_dec (start + count) (Z.of_nat (length l))) as [Hfit | Hover].
    + f_equal. lia.
    + rewrite !take_ge; [reflexivity | |]; rewrite length_drop; lia.
Qed.

Lemma slice_tiles {A : Type} (l : list A) (offset limit1 limit2 : Z) :
  0 <= offset -> 0 <= limit1 -> 0 <= limit2 ->
  slice l offset (offset + (limit1 + limit2))
  = slice l offset (offset + limit1)
    ++ slice l (offset + limit1) (offset + limit1 + limit2).
Proof.
  intros Hoffset H1 H2. rewrite !slice_window by lia.
  rewrite Z2Nat.inj_add by lia. rewrite <- take_take_drop.
  rewrite drop_drop. rewrite Z2Nat.inj_add by lia. reflexivity.
Qed.

Lemma all_settle {K A : Type} (call : K -> Promise A) (keys : list K) :
  Forall (fun key => exists r, settled (call key) = Fulfilled r) keys ->
  exists results, all_settled (map settled (map call keys)) = Fulfilled results.
Proof.
  induction 1 as [| key keys [r Hr] _ [rs IH]]; cbn [map all_settled].
  - exists []. reflexivity.
  - exists (r :: rs). rewrite Hr, IH. reflexivity.
Qed.

Lemma getStories_fulfilled (net : Network) (kind : StoryKind) (limit offset : Z)
  (page : StoriesPage) :
  settled (getStories net kind limit offset) = Fulfilled page
  <-> exists allIds,
        settled (getStoryIds net kind) = Fulfilled allIds
        /\ Forall (fun id => exists r, settled (getItem net id) = Fulfilled r)
             (slice allIds offset (offset + limit))
        /\ page = {| items := omap (fun id => fulfilled_value (settled (getItem net id)))
                                (slice allIds offset (offset + limit));
                     total := Z.of_nat (length allIds) |}.
Proof.
  split.
  - intros Hpage.
    destruct (settled (getStoryIds net kind)) as [allIds | e] eqn:Hids.
    + exists allIds. split; [reflexivity |].
      rewrite (getStories_settled _ _ _ _ _ Hids) in Hpage.
      destruct (all_settled _) as [results | e] eqn:Hall; [| discriminate].
      apply all_settled_omap in Hall. destruct Hall as [Hall Heq].
      split; [exact Hall |]. injection Hpage as <-.
      unfold filter_non_null. rewrite Heq. reflexivity.
    + unfold getStories in Hpage. rewrite settled_await, Hids in Hpage. discriminate.
  - intros [allIds [Hids [Hall ->]]].
    rewrite (getStories_settled _ _ _ _ _ Hids).
    destruct (all_settle (fun id => getItem net id) _ Hall) as [results Hrs].
    rewrite Hrs.
    apply all_settled_omap in Hrs. destruct Hrs as [_ Heq].
    unfold filter_non_null. rewrite Heq. reflexivity.
Qed.

(** X5.  Consecutive pages tile the listing.  For an offset and limits
    that are not negative, when the page of [limit1 + limit2] items at
    [offset] is there, so are the page of [limit1] at [offset] and the
    page of [limit2] at [offset + limit1]; the items of the first followed
    by those of the second are the items of the long page, and the three
    totals agree. *)
Theorem getStories_pages_tile (net : Network) (kind : StoryKind)
  (offset limit1 limit2 : Z) (page : StoriesPage) :
  0 <= offset -> 0 <= limit1 -> 0 <= limit2 ->
  settled (getStories net kind (limit1 + limit2) offset) = Fulfilled page ->
  exists page1 page2,
    settled (getStories net kind limit1 offset) = Fulfilled page1
    /\ settled (getStories net kind limit2 (offset + limit1)) = Fulfilled page2
    /\ items page = items page1 ++ items page2
    /\ total page1 = total page /\ total page2 = total page.
Proof.
  intros Hoffset H1 H2 Hpage.
  apply getStories_fulfilled in Hpage. destruct Hpage as [allIds [Hids [Hall ->]]].
  rewrite (slice_tiles allIds offset limit1 limit2) in * by lia.
  apply Forall_app in Hall. destruct Hall as [Hall1 Hall2].
  eexists. eexists.
  split; [apply getStories_fulfilled; exists allIds; repeat split; eassumption |].
  split; [apply getStories_fulfilled; exists allIds; repeat split; eassumption |].
  cbn [items total]. rewrite omap_app. repeat split; reflexivity.
Qed.

Lemma getStories_pages_tile_witness :
  exists page1 page2,
    settled (getStories sample_net topstories 2 1) = Fulfilled page1
    /\ settled (getStories sample_net topstories 2 (1 + 2)) = Fulfilled page2
    /\ items {| items := [bare_item 11; bare_item 12; bare_item 14]; total := 5 |}
       = items page1 ++ items page2
    /\ total page1 = 5 /\ total page2 = 5.
Proof.
  apply (getStories_pages_tile sample_net topstories 1 2 2
           {| items := [bare_item 11; bare_item 12; bare_item 14]; total := 5 |}).
  - lia.
  - lia.
  - lia.
  - vm_compute. reflexivity.
Defined.

(* ===================================================================== *)
(** * Further properties: the comment tree *)
(* ===================================================================== *)

Lemma fulfilled_value_Some {A : Type} (s : Settled (option A)) (a : A) :
  fulfilled_value s = Some a <-> s = Fulfilled (Some a).
Proof.
  destruct s as [[a' |] | e]; cbn [fulfilled_value];
    split; intros Heq; try discriminate; congruence.
Qed.

Lemma tree_height_le (node : TreeNode) (h : nat) :
  Forall (fun child => (S (tree_height child) <= h)%nat) (node_children node) ->
  (tree_height node <= h)%nat.
Proof.
  destruct node as [i b t tm children]. cbn [node_children tree_height].
  intros Hall. apply list_max_le. apply List.Forall_map. exact Hall.
Qed.

Lemma getCommentTree_height_within (n : nat) :
  forall (net : Network) (itemId maxDepth currentDepth : Z) (node : TreeNode),
    (Z.to_nat (maxDepth - currentDepth) <= n)%nat ->
    settled (getCommentTree net itemId maxDepth currentDepth) = Fulfilled (Some node) ->
    (tree_height node <= n)%nat.
Proof.
  induction n as [| n IH]; intros net itemId maxDepth currentDepth node Hn Hnode;
    apply getCommentTree_node in Hnode;
    destruct Hnode as [Hle [item [_ [_ Hchildren]]]];
    apply tree_height_le;
    destruct (item_kids item) as [kids |];
    try (rewrite Hchildren; constructor);
    (destruct (Z.ltb_spec currentDepth maxDepth) as [Hlt | Hge];
     [| rewrite Hchildren; constructor]).
  - lia.
  - destruct Hchildren as [_ Heq]. rewrite Heq.
    apply Forall_forall. intros child Hchild.
    apply list_elem_of_omap in Hchild. destruct Hchild as [kid [_ Hkid]].
    apply fulfilled_value_Some in Hkid.
    apply IH in Hkid; lia.
Qed.

(** X6.  The tree that [getCommentTree] returns is at most
    [maxDepth - currentDepth] levels deep below its root. *)
Theorem getCommentTree_height (net : Network) (itemId maxDepth currentDepth : Z)
  (node : TreeNode) :
  settled (getCommentTree net itemId maxDepth currentDepth) = Fulfilled (Some node) ->
  (tree_height node <= Z.to_nat (maxDepth - currentDepth))%nat.
Proof.
  intros Hnode.
  apply (getCommentTree_height_within _ net itemId maxDepth currentDepth).
  - reflexivity.
  - exact Hnode.
Qed.

Lemma getCommentTree_height_witness :
  (tree_height (node_1 [node_3]) <= Z.to_nat (1 - 0))%nat.
Proof.
  apply (getCommentTree_height sample_net 1 1 0 (node_1 [node_3])).
  vm_compute. reflexivity.
Defined.

(** X7.  A failure is not pruned.  [getCommentTree] rejects exactly when
    the call is within the depth bound and either the fetch of its item
    rejects, or the item has child ids, depth budget is left and the call
    on one of the children rejects. *)
Theorem getCommentTree_rejects (net : Network) (itemId maxDepth currentDepth : Z) :
  (exists e, settled (getCommentTree net itemId maxDepth currentDepth) = Rejected e)
  <-> currentDepth <= maxDepth
      /\ ((exists e, settled (getItem net itemId) = Rejected e)
          \/ exists item kids,
               settled (getItem net itemId) = Fulfilled (Some item)
               /\ item_kids item = Some kids
               /\ currentDepth < maxDepth
               /\ Exists (fun kid => exists e,
                            settled (getCommentTree net kid maxDepth (currentDepth + 1))
                            = Rejected e) kids).
Proof.
  destruct (Z_le_gt_dec currentDepth maxDepth) as [Hle | Hgt].
  - destruct (settled (getItem net itemId)) as [[item |] | e] eqn:Hitem.
    + rewrite (getCommentTree_of_item _ _ _ _ item Hle Hitem).
      destruct (item_kids item) as [kids |] eqn:Hkids.
      * destruct (Z.ltb_spec currentDepth maxDepth) as [Hlt | Hge].
        -- pose proof (all_settled_rejected
                         (map settled
                            (map (fun kid => getCommentTree net kid maxDepth
                                               (currentDepth + 1)) kids))) as Hrej.
           rewrite (Exists_settled_map
                      (fun kid => getCommentTree net kid maxDepth (currentDepth + 1)))
             in Hrej.
           destruct (all_settled _) as [results | e].
           ++ split; [intros [e He]; discriminate |].
              intros [_ [[e He] | [item' [kids' [Hitem' [Hkids' [_ Hex]]]]]]];
                [discriminate |].
              injection Hitem' as <-. rewrite Hkids in Hkids'. injection Hkids' as <-.
              apply Hrej in Hex. destruct Hex as [e He]. discriminate.
           ++ split; [| intros _; exists e; reflexivity].
              intros _. split; [exact Hle |]. right. exists item, kids.
              repeat split; try assumption. apply Hrej. exists e. reflexivity.
        -- split; [intros [e He]; discriminate |].
           intros [_ [[e He] | [item' [kids' [_ [_ [Hlt _]]]]]]]; [discriminate | lia].
      * split; [intros [e He]; discriminate |].
        intros [_ [[e He] | [item' [kids' [Hitem' [Hkids' _]]]]]]; [discriminate |].
        injection Hitem' as <-. rewrite Hkids in Hkids'. discriminate.
    + rewrite getCommentTree_fixed_point. unfold getCommentTree_body.
      destruct (Z.gtb_spec currentDepth maxDepth); [lia |].
      rewrite settled_await, Hitem.
      split; [intros [e He]; discriminate |].
      intros [_ [[e He] | [item [kids [Hitem' _]]]]]; discriminate.
    + rewrite getCommentTree_fixed_point. unfold getCommentTree_body.
      destruct (Z.gtb_spec currentDepth maxDepth); [lia |].
      rewrite settled_await, Hitem.
      split; [| intros _; exists e; reflexivity].
      intros _. split; [exact Hle |]. left. exists e. reflexivity.
  - rewrite getCommentTree_fixed_point. unfold getCommentTree_body.
    destruct (Z.gtb_spec currentDepth maxDepth); [| lia].
    split; [intros [e He]; discriminate | intros [Hle _]; lia].
Qed.

(** The requests of a call, in the order of the model: the one for its
    item, then those of the calls on the children. *)
Lemma getCommentTree_requests (net : Network) (itemId maxDepth currentDepth : Z) :
  fetched (getCommentTree net itemId maxDepth currentDepth) =
  if currentDepth >? maxDepth then []
  else
    item_url_of itemId
    :: match settled (getItem net itemId) with
       | Fulfilled (Some item) =>
           match item_kids item with
           | Some kids =>
               if currentDepth <? maxDepth then
                 concat (map (fun kid =>
                                fetched (getCommentTree net kid maxDepth
                                           (currentDepth + 1))) kids)
               else []
           | None => []
           end
       | _ => []
       end.
Proof.
  rewrite getCommentTree_fixed_point. unfold getCommentTree_body.
  destruct (currentDepth >? maxDepth); [reflexivity |].
  rewrite fetched_await, getItem_requests.
  destruct (settled (getItem net itemId)) as [[item |] | e]; try reflexivity.
  cbn [app]. f_equal. rewrite fetched_await.
  destruct (item_kids item) as [kids |]; [| reflexivity].
  destruct (currentDepth <? maxDepth); [| reflexivity].
  rewrite settled_await, fetched_await. unfold Promise_all.
  cbn [fetched settled fst snd].
  rewrite <- (map_map (fun kid => getCommentTree net kid maxDepth (currentDepth + 1))
                fetched kids).
  destruct (all_settled _); cbn [resolve settled fetched fst snd];
    rewrite ?app_nil_r; reflexivity.
Qed.

Lemma fanout_bound_pos (width depth : nat) : (1 <= fanout_bound width depth)%nat.
Proof. destruct depth; cbn [fanout_bound]; lia. Qed.

Lemma length_concat_le {K A : Type} (f : K -> list A) (keys : list K) (bound : nat) :
  (forall key, (length (f key) <= bound)%nat) ->
  (length (concat (map f keys)) <= length keys * bound)%nat.
Proof.
  intros Hf. induction keys as [| key keys IH]; [reflexivity |].
  cbn [map concat length]. rewrite length_app. specialize (Hf key). lia.
Qed.

(** X8.  The fan-out is bounded by the depth and the width.  On a network
    where no item has more than [width] child ids, a call issues at most
    [1 + width + ... + width ^ (maxDepth - currentDepth)] requests. *)
Theorem getCommentTree_request_bound (net : Network) (width : nat)
  (itemId maxDepth currentDepth : Z) :
  (forall id item kids,
      settled (getItem net id) = Fulfilled (Some item) ->
      item_kids item = Some kids ->
      (length kids <= width)%nat) ->
  (length (fetched (getCommentTree net itemId maxDepth currentDepth))
   <= fanout_bound width (Z.to_nat (maxDepth - currentDepth)))%nat.
Proof.
  intros Hwidth.
  remember (Z.to_nat (maxDepth - currentDepth)) as n eqn:Hn.
  revert itemId currentDepth Hn.
  induction n as [n IH] using lt_wf_ind.
  intros itemId currentDepth Hn.
  rewrite getCommentTree_requests.
  pose proof (fanout_bound_pos width n) as Hpos.
  destruct (currentDepth >? maxDepth); [cbn [length]; lia |].
  cbn [length].
  destruct (settled (getItem net itemId)) as [[item |] | e] eqn:Hitem;
    try (cbn [length]; lia).
  destruct (item_kids item) as [kids |] eqn:Hkids; [| cbn [length]; lia].
  destruct (Z.ltb_spec currentDepth maxDepth) as [Hlt | Hge]; [| cbn [length]; lia].
  destruct n as [| n']; [lia |].
  cbn [fanout_bound].
  pose proof (length_concat_le
                (fun kid => fetched (getCommentTree net kid maxDepth (currentDepth + 1)))
                kids (fanout_bound width n')) as Hsum.
  assert (Hkid : forall kid,
             (length (fetched (getCommentTree net kid maxDepth (currentDepth + 1)))
              <= fanout_bound width n')%nat).
  { intros kid. apply (IH n'); lia. }
  specialize (Hsum Hkid). specialize (Hwidth _ _ _ Hitem Hkids). nia.
Qed.

(** X9.  Only the distance between the two depths matters: shifting
    [maxDepth] and [currentDepth] by the same amount changes neither the
    result nor the requests. *)
Theorem getCommentTree_depth_shift (net : Network) (itemId maxDepth currentDepth k : Z) :
  getCommentTree net itemId (maxDepth + k) (currentDepth + k)
  = getCommentTree net itemId maxDepth currentDepth.
Proof.
  remember (Z.to_nat (maxDepth + 1 - currentDepth)) as n eqn:Hn.
  revert itemId currentDepth Hn.
  induction n as [n IH] using lt_wf_ind.
  intros itemId currentDepth Hn.
  rewrite (getCommentTree_fixed_point net itemId (maxDepth + k)).
  rewrite (getCommentTree_fixed_point net itemId maxDepth).
  unfold getCommentTree_body.
  replace (currentDepth + k >? maxDepth + k) with (currentDepth >? maxDepth)
    by (destruct (Z.gtb_spec currentDepth maxDepth),
          (Z.gtb_spec (currentDepth + k) (maxDepth + k)); lia || reflexivity).
  destruct (currentDepth >? maxDepth); [reflexivity |].
  apply await_ext. intros [item |]; [| reflexivity].
  destruct (item_kids item) as [kids |]; [| reflexivity].
  replace (currentDepth + k <? maxDepth + k) with (currentDepth <? maxDepth)
    by (destruct (Z.ltb_spec currentDepth maxDepth),
          (Z.ltb_spec (currentDepth + k) (maxDepth + k)); lia || reflexivity).
  destruct (Z.ltb_spec currentDepth maxDepth) as [Hlt | Hge]; [| reflexivity].
  do 3 f_equal. apply map_ext. intros kid.
  replace (currentDepth + k + 1) with (currentDepth + 1 + k) by lia.
  apply (IH (Z.to_nat (maxDepth + 1 - (currentDepth + 1)))); lia.
Qed.

Lemma lookup_url_cases {V : Type} (table : list (string * V)) (default : V)
  (url : string) :
  lookup_url table default url = default
  \/ In (lookup_url table default url) (map snd table).
Proof.
  induction table as [| [u v] table IH]; cbn [lookup_url map snd In].
  - left. reflexivity.
  - destruct (String.eqb u url).
    + right. left. reflexivity.
    + destruct IH as [IH | IH]; [left | right; right]; exact IH.
Qed.

Lemma sample_net_width (id : Z) (item : HNItem) (kids : list Z) :
  settled (getItem sample_net id) = Fulfilled (Some item) ->
  item_kids item = Some kids ->
  (length kids <= 2)%nat.
Proof.
  intros Hitem Hkids. unfold getItem in Hitem. rewrite fetchJson_eq in Hitem.
  cbn [settled snd] in Hitem.
  unfold endpoint, Payload_HNItem, sample_net, item_endpoint in Hitem.
  match type of Hitem with
  | context [lookup_url ?table ?d ?url] =>
      destruct (lookup_url_cases table d url) as [Hcase | Hcase];
      [rewrite Hcase in Hitem; discriminate |];
      cbn [map snd In] in Hcase;
      repeat (destruct Hcase as [Hcase | Hcase];
              [rewrite <- Hcase in Hitem; cbn in Hitem; try discriminate Hitem;
               injection Hitem as <-; cbn in Hkids; try discriminate Hkids;
               injection Hkids as <-; cbn; lia |]);
      destruct Hcase
  end.
Qed.

Lemma getCommentTree_request_bound_witness :
  (length (fetched (getCommentTree sample_net 1 2 0))
   <= fanout_bound 2 (Z.to_nat (2 - 0)))%nat.
Proof.
  apply (getCommentTree_request_bound sample_net 2 1 2 0).
  exact sample_net_width.
Defined.

(* ===================================================================== *)
(** * Further properties: the search request and the tool layer *)
(* ===================================================================== *)

(** X10.  The parameters of a search request come in one fixed order,
    [query], [tags], [page], [hitsPerPage], [numericFilters], each at most
    once, and [query] is always the first. *)
Theorem searchParams_order (query : string) (opts : SearchOpts) :
  sublist (map fst (searchParams query opts))
    ["query"; "tags"; "page"; "hitsPerPage"; "numericFilters"]%string
  /\ NoDup (map fst (searchParams query opts))
  /\ exists rest, searchParams query opts = ("query"%string, query) :: rest.
Proof.
  assert (Hsub : sublist (map fst (searchParams query opts))
                   ["query"; "tags"; "page"; "hitsPerPage"; "numericFilters"]%string).
  { destruct opts as [[[| c tags] |] [page |] [hitsPerPage |] [[| c' filters] |]];
      cbn;
      repeat first [apply sublist_nil | apply sublist_skip | apply sublist_cons]. }
  split; [exact Hsub |]. split.
  - refine (sublist_NoDup _ _ _ Hsub).
    repeat (apply NoDup_cons_2;
            [rewrite list_elem_of_In; cbn [In]; intuition discriminate |]).
    apply NoDup_nil_2.
  - destruct opts as [[[| c tags] |] [page |] [hitsPerPage |] [[| c' filters] |]];
      cbn; eexists; reflexivity.
Qed.

(** X11.  Clamping leaves valid arguments alone: for a limit in [1, 50]
    and an offset that is not negative, a depth in [1, 5] and a page size
    in [1, 50], the handlers call the API with the very arguments they
    were given. *)
Theorem handlers_keep_valid_arguments :
  (forall (Date_toISOString : Z -> string) (api : Api) (tool : StoryTool)
          (limit offset : Z),
      1 <= limit <= 50 -> 0 <= offset ->
      story_handler Date_toISOString api tool limit offset
      = await (api_getStories api (tool_kind tool) limit offset)
          (fun page => completed (story_reply Date_toISOString tool offset page)))
  /\ (forall (JSON_stringify : TreeNode -> string) (api : Api) (id depth : Z),
        1 <= depth <= 5 ->
        hn_get_comments JSON_stringify api id depth
        = await (api_getCommentTree api id depth 0)
            (fun tree => resolve (comments_reply JSON_stringify id tree)))
  /\ (forall (api : Api) (query : string) (tags : option string)
             (page hitsPerPage : Z) (numericFilters : option string),
        1 <= hitsPerPage <= 50 ->
        hn_search api query tags page hitsPerPage numericFilters
        = await (api_searchHN api query
                   {| opt_tags := tags; opt_page := Some page;
                      opt_hitsPerPage := Some hitsPerPage;
                      opt_numericFilters := numericFilters |})
            (fun result => resolve (search_reply query result))).
Proof.
  split; [| split].
  - intros toISO api tool limit offset Hlimit Hoffset. unfold story_handler.
    replace (clamp limit 1 50) with limit by (unfold clamp; lia).
    replace (Z.max 0 offset) with offset by lia. reflexivity.
  - intros stringify api id depth Hdepth. unfold hn_get_comments.
    replace (clamp depth 1 5) with depth by (unfold clamp; lia). reflexivity.
  - intros api query tags page hitsPerPage numericFilters Hsize. unfold hn_search.
    replace (clamp hitsPerPage 1 50) with hitsPerPage by (unfold clamp; lia).
    reflexivity.
Qed.

Lemma handlers_keep_valid_arguments_witness :
  story_handler String_of_number echo_api
    {| tool_name := "hn_new_stories"; tool_title := "New Stories";
       tool_kind := newstories |} 50 0
  = await (api_getStories echo_api newstories 50 0)
      (fun page =>
         completed (story_reply String_of_number
                    {| tool_name := "hn_new_stories"; tool_title := "New Stories";
                       tool_kind := newstories |} 0 page))
  /\ hn_get_comments node_by echo_api 8863 5
     = await (api_getCommentTree echo_api 8863 5 0)
         (fun tree => resolve (comments_reply node_by 8863 tree))
  /\ hn_search echo_api "rust" None 0 1 None
     = await (api_searchHN echo_api "rust"
                {| opt_tags := None; opt_page := Some 0;
                   opt_hitsPerPage := Some 1; opt_numericFilters := None |})
         (fun result => resolve (search_reply "rust" result)).
Proof.
  split; [| split].
  - apply (proj1 handlers_keep_valid_arguments); lia.
  - apply (proj1 (proj2 handlers_keep_valid_arguments)); lia.
  - apply (proj2 (proj2 handlers_keep_valid_arguments)); lia.
Defined.

(** X12.  A story-listing handler never reports a tool error: whatever the
    API returns, a result of the handler has one text entry and no error
    flag. *)
Theorem story_handler_never_error (Date_toISOString : Z -> string) (api : Api)
  (tool : StoryTool) (limit offset : Z) (result : ToolResult) :
  settled (story_handler Date_toISOString api tool limit offset) = Fulfilled result ->
  isError result = false /\ length (content result) = 1%nat.
Proof.
  unfold story_handler. rewrite settled_await.
  destruct (settled (api_getStories api _ _ _)) as [page |]; [| discriminate].
  cbn [completed settled snd]. unfold story_reply.
  destruct (Nat.eqb _ 0).
  - intros Hresult. injection Hresult as <-. split; reflexivity.
  - destruct (map_throwing _ _) as [stories | e]; [| discriminate].
    intros Hresult. injection Hresult as <-. split; reflexivity.
Qed.

Lemma story_handler_never_error_witness :
  isError echo_story_result = false /\ length (content echo_story_result) = 1%nat.
Proof.
  apply (story_handler_never_error String_of_number echo_api top_tool 1000 (-7)).
  vm_compute. reflexivity.
Defined.

Lemma slice_nil {A : Type} (start finish : Z) : slice (@nil A) start finish = [].
Proof. unfold slice. rewrite drop_nil, take_nil. reflexivity. Qed.

(** X13.  A listing that is not served reads as an empty one.  When the
    listing endpoint answers with a status that is not a success, or with
    [null], a story-listing handler over the client makes the one request
    and answers that no stories were found, with a total of 0 and without
    an error flag. *)
Theorem story_handler_absent_listing (Date_toISOString : Z -> string) (net : Network)
  (tool : StoryTool) (limit offset : Z) (res : Response (list Z)) :
  ids_endpoint net (HN_BASE ++ "/" ++ kind_name (tool_kind tool) ++ ".json")%string
  = Responded res ->
  ok res = false \/ body res = Json None ->
  story_handler Date_toISOString (hn_api net) tool limit offset
  = ([(HN_BASE ++ "/" ++ kind_name (tool_kind tool) ++ ".json")%string],
     Fulfilled
       {| content := [("No stories found at offset "
                         ++ String_of_number (Z.max 0 offset)
                         ++ ". Total available: 0.")%string];
          isError := false |}).
Proof.
  intros Hres Habsent.
  assert (Hids : getStoryIds net (tool_kind tool)
                 = ([(HN_BASE ++ "/" ++ kind_name (tool_kind tool) ++ ".json")%string],
                    Fulfilled [])).
  { rewrite getStoryIds_eq, fetchJson_eq.
    unfold endpoint, Payload_ids. rewrite Hres. cbn [settled snd].
    destruct Habsent as [-> | ->]; [reflexivity |].
    destruct (ok res); reflexivity. }
  unfold story_handler, hn_api. cbn [api_getStories]. unfold getStories.
  rewrite Hids. cbn beta iota delta [await].
  rewrite slice_nil. reflexivity.
Qed.

Lemma story_handler_absent_listing_witness :
  story_handler String_of_number (hn_api sample_net)
    {| tool_name := "hn_job_stories"; tool_title := "Job Stories";
       tool_kind := jobstories |} 10 (-4)
  = ([(HN_BASE ++ "/" ++ kind_name jobstories ++ ".json")%string],
     Fulfilled
       {| content := [("No stories found at offset "
                         ++ String_of_number (Z.max 0 (-4))
                         ++ ". Total available: 0.")%string];
          isError := false |}).
Proof.
  apply (story_handler_absent_listing String_of_number sample_net
           {| tool_name := "hn_job_stories"; tool_title := "Job Stories";
              tool_kind := jobstories |} 10 (-4)
           {| ok := false; body := Malformed |}).
  - reflexivity.
  - left. reflexivity.
Defined.

Lemma getCommentTree_null_within (net : Network) (itemId maxDepth currentDepth : Z) :
  currentDepth <= maxDepth ->
  (settled (getCommentTree net itemId maxDepth currentDepth) = Fulfilled None
   <-> settled (getItem net itemId) = Fulfilled None).
Proof.
  intros Hle. rewrite getCommentTree_fixed_point. unfold getCommentTree_body.
  destruct (Z.gtb_spec currentDepth maxDepth); [lia |].
  rewrite settled_await.
  destruct (settled (getItem net itemId)) as [[item |] | e].
  - rewrite settled_await. destruct (settled _); split; discriminate.
  - split; reflexivity.
  - split; discriminate.
Qed.

Lemma clamp_bounds (value min max : Z) :
  min <= max -> min <= clamp value min max /\ clamp value min max <= max.
Proof. unfold clamp. lia. Qed.

(** X14.  Over the client, [hn_get_comments] reports "not found" exactly
    when the fetch of the root item returns [null]: the depth check never
    causes it, whatever depth is asked for. *)
Theorem hn_get_comments_not_found (JSON_stringify : TreeNode -> string)
  (net : Network) (id depth : Z) (result : ToolResult) :
  settled (hn_get_comments JSON_stringify (hn_api net) id depth) = Fulfilled result ->
  (isError result = true <-> settled (getItem net id) = Fulfilled None).
Proof.
  unfold hn_get_comments, hn_api. cbn [api_getCommentTree]. rewrite settled_await.
  pose proof (clamp_bounds depth 1 5) as Hclamp.
  assert (Hle : 0 <= clamp depth 1 5) by lia.
  pose proof (getCommentTree_null_within net id (clamp depth 1 5) 0 Hle) as Hnull.
  destruct (settled (getCommentTree net id (clamp depth 1 5) 0))
    as [[tree |] | e] eqn:Htree; [| | discriminate];
    cbn [resolve settled snd]; intros Hresult; injection Hresult as <-;
    cbn [comments_reply isError].
  - split; [discriminate |]. intros Habsent.
    apply Hnull in Habsent. discriminate.
  - split; [intros _; apply Hnull; reflexivity | reflexivity].
Qed.

Lemma hn_get_comments_not_found_witness :
  isError (comments_reply node_by 2 None) = true
  <-> settled (getItem sample_net 2) = Fulfilled None.
Proof.
  apply (hn_get_comments_not_found node_by sample_net 2 0).
  vm_compute. reflexivity.
Defined.

(** X15.  The tree that [hn_get_comments] prints is at most 5 levels deep
    below its root, whatever depth is asked for. *)
Theorem hn_get_comments_height (JSON_stringify : TreeNode -> string)
  (net : Network) (id depth : Z) (result : ToolResult) :
  settled (hn_get_comments JSON_stringify (hn_api net) id depth) = Fulfilled result ->
  isError result = false ->
  exists tree,
    content result = [JSON_stringify tree]
    /\ (tree_height tree <= 5)%nat.
Proof.
  unfold hn_get_comments, hn_api. cbn [api_getCommentTree]. rewrite settled_await.
  pose proof (clamp_bounds depth 1 5) as Hclamp.
  destruct (settled (getCommentTree net id (clamp depth 1 5) 0))
    as [[tree |] | e] eqn:Htree; [| | discriminate];
    cbn [resolve settled snd]; intros Hresult; injection Hresult as <-;
    cbn [comments_reply isError content]; intros Hok; [| discriminate].
  exists tree. split; [reflexivity |].
  apply (getCommentTree_height_within 5 net id (clamp depth 1 5) 0); [lia | exact Htree].
Qed.

Lemma hn_get_comments_height_witness :
  exists tree,
    content (comments_reply node_by 1 (Some (node_1 [node_3]))) = [node_by tree]
    /\ (tree_height tree <= 5)%nat.
Proof.
  apply (hn_get_comments_height node_by sample_net 1 9).
  - vm_compute. reflexivity.
  - reflexivity.
Defined.

(** X16.  The summary of a user lists at most 20 submissions, the first
    ones of the user's list in their order, and none when the user has no
    list; the about text is passed on as it is.  The summary is built
    exactly when the creation time is 0 or a date that JavaScript can
    print. *)
Theorem user_summary_recent (Date_toISOString : Z -> string) (user : HNUser) :
  (forall summary,
      user_summary Date_toISOString user = Fulfilled summary ->
      summary_recentSubmissions summary = take 20 (nullish (user_submitted user) [])
      /\ (length (summary_recentSubmissions summary) <= 20)%nat
      /\ summary_recentSubmissions summary `prefix_of` nullish (user_submitted user) []
      /\ summary_about summary = user_about user)
  /\ ((exists summary, user_summary Date_toISOString user = Fulfilled summary)
      <-> user_created user = 0
          \/ Z.abs (user_created user * 1000) <= MAX_TIME_VALUE).
Proof.
  unfold user_summary, formatTime. split.
  - intros summary Hsummary.
    assert (Heq : summary_recentSubmissions summary
                  = take 20 (nullish (user_submitted user) [])).
    { destruct (user_created user =? 0);
        [| destruct (Z.abs _ <=? MAX_TIME_VALUE); [| discriminate]];
        injection Hsummary as <-; cbn [summary_recentSubmissions];
        rewrite (slice_window _ 0 20) by lia; reflexivity. }
    rewrite Heq. split; [reflexivity |]. split; [| split].
    + rewrite length_take. lia.
    + apply prefix_take.
    + destruct (user_created user =? 0);
        [| destruct (Z.abs _ <=? MAX_TIME_VALUE); [| discriminate]];
        injection Hsummary as <-; reflexivity.
  - destruct (Z.eqb_spec (user_created user) 0) as [Hzero | Hnonzero].
    + split; [intros _; left; exact Hzero | intros _; eexists; reflexivity].
    + destruct (Z.leb_spec (Z.abs (user_created user * 1000)) MAX_TIME_VALUE)
        as [Hin | Hout].
      * split; [intros _; right; exact Hin | intros _; eexists; reflexivity].
      * split; [intros [summary Hsummary]; discriminate |].
        intros [Hzero | Hin]; [contradiction | lia].
Qed.

Lemma user_summary_recent_witness :
  summary_recentSubmissions sample_summary
  = take 20 (nullish (user_submitted sample_user) [])
  /\ (length (summary_recentSubmissions sample_summary) <= 20)%nat
  /\ summary_recentSubmissions sample_summary
     `prefix_of` nullish (user_submitted sample_user) []
  /\ summary_about sample_summary = user_about sample_user.
Proof.
  apply (proj1 (user_summary_recent String_of_number sample_user)).
  vm_compute. reflexivity.
Defined.

(** X17.  Over the client, [hn_search] makes one request, and its
    parameters always include the query, the page and a page size, which
    is in [1, 50] whatever size is asked for. *)
Theorem hn_search_request (net : Network) (query : string) (tags : option string)
  (page hitsPerPage : Z) (numericFilters : option string) :
  exists params safeSize,
    fetched (hn_search (hn_api net) query tags page hitsPerPage numericFilters)
    = [(ALGOLIA_BASE ++ "/search?" ++ params_toString params)%string]
    /\ params_get "query" params = Some query
    /\ params_get "page" params = Some (String_of_number page)
    /\ params_get "hitsPerPage" params = Some (String_of_number safeSize)
    /\ 1 <= safeSize <= 50.
Proof.
  exists (searchParams query
            {| opt_tags := tags; opt_page := Some page;
               opt_hitsPerPage := Some (clamp hitsPerPage 1 50);
               opt_numericFilters := numericFilters |}),
         (clamp hitsPerPage 1 50).
  split.
  - unfold hn_search, hn_api. cbn [api_searchHN]. unfold searchHN.
    rewrite fetched_await, fetchJson_eq. cbn [fetched settled fst snd].
    destruct (endpoint net _) as [| [[|] [| data]]]; reflexivity.
  - pose proof (clamp_bounds hitsPerPage 1 50).
    destruct tags as [[| c tags] |], numericFilters as [[| c' filters] |];
      cbn; repeat split; try reflexivity; lia.
Qed.

Lemma user_reply_found (Date_toISOString : Z -> string)
  (JSON_stringify_summary : UserSummary -> string) (username : string)
  (user : HNUser) :
  ((user_created user = 0 \/ Z.abs (user_created user * 1000) <= MAX_TIME_VALUE)
   /\ exists result,
        user_reply Date_toISOString JSON_stringify_summary username (Some user)
        = Fulfilled result
        /\ isError result = false)
  \/ (user_created user <> 0
      /\ MAX_TIME_VALUE < Z.abs (user_created user * 1000)
      /\ user_reply Date_toISOString JSON_stringify_summary username (Some user)
         = Rejected RangeError).
Proof.
  unfold user_reply, user_summary, formatTime.
  destruct (Z.eqb_spec (user_created user) 0) as [Hzero | Hnonzero].
  - left. split; [left; exact Hzero |]. eexists. split; reflexivity.
  - destruct (Z.leb_spec (Z.abs (user_created user * 1000)) MAX_TIME_VALUE)
      as [Hin | Hout].
    + left. split; [right; exact Hin |]. eexists. split; reflexivity.
    + right. repeat split; [exact Hnonzero | exact Hout].
Qed.

(** X18.  Over the client, [hn_get_item] and [hn_get_user] report "not
    found" exactly when the endpoint answers with a status that is not a
    success or with [null].  [hn_get_item] rejects exactly when there is
    no response or the body of a successful response is not JSON;
    [hn_get_user] rejects in these two cases and in one more, when the
    user is served with a creation time that is not 0 and is beyond the
    dates that [toISOString] can print. *)
Theorem lookup_handlers_outcome :
  (forall (JSON_stringify_item : HNItem -> string) (net : Network) (id : Z),
      ((exists result,
           settled (hn_get_item JSON_stringify_item (hn_api net) id) = Fulfilled result
           /\ isError result = true)
       <-> exists res, item_endpoint net (item_url_of id) = Responded res
                       /\ (ok res = false \/ body res = Json None))
      /\ ((exists e,
              settled (hn_get_item JSON_stringify_item (hn_api net) id) = Rejected e)
          <-> item_endpoint net (item_url_of id) = NoResponse
              \/ exists res, item_endpoint net (item_url_of id) = Responded res
                             /\ ok res = true /\ body res = Malformed))
  /\ (forall (Date_toISOString : Z -> string)
             (JSON_stringify_summary : UserSummary -> string)
             (net : Network) (username : string),
        ((exists result,
             settled (hn_get_user Date_toISOString JSON_stringify_summary
                        (hn_api net) username) = Fulfilled result
             /\ isError result = true)
         <-> exists res,
               user_endpoint net (HN_BASE ++ "/user/" ++ username ++ ".json")%string
               = Responded res
               /\ (ok res = false \/ body res = Json None))
        /\ ((exists e,
                settled (hn_get_user Date_toISOString JSON_stringify_summary
                           (hn_api net) username) = Rejected e)
            <-> user_endpoint net (HN_BASE ++ "/user/" ++ username ++ ".json")%string
                = NoResponse
                \/ (exists res,
                       user_endpoint net
                         (HN_BASE ++ "/user/" ++ username ++ ".json")%string
                       = Responded res
                       /\ ok res = true /\ body res = Malformed)
                \/ (exists res user,
                       user_endpoint net
                         (HN_BASE ++ "/user/" ++ username ++ ".json")%string
                       = Responded res
                       /\ ok res = true /\ body res = Json (Some user)
                       /\ user_created user <> 0
                       /\ MAX_TIME_VALUE < Z.abs (user_created user * 1000)))).
Proof.
  split.
  - intros stringify net id.
    unfold hn_get_item, hn_api. cbn [api_getItem]. rewrite settled_await.
    unfold getItem. rewrite fetchJson_eq. cbn [settled snd].
    unfold endpoint, Payload_HNItem. fold (item_url_of id).
    destruct (item_endpoint net (item_url_of id)) as [| [[|] [| [data |]]]];
      cbn [ok body resolve settled snd item_reply]; split; split;
      try (intros [result [Hresult Herror]]; discriminate Hresult);
      try (intros [res [Hres Hcase]]; discriminate Hres);
      try (intros [result [Hresult Herror]]; injection Hresult as <-; discriminate);
      try (intros [e He]; discriminate);
      try (intros [res [Hres [Hok | Hbody]]]; injection Hres as <-; discriminate);
      try (intros [Hno | [res [Hres [Hok Hbody]]]];
           [discriminate | injection Hres as <-; discriminate]);
      try (intros _; eexists; split; [reflexivity |]; (left + right); reflexivity);
      try (intros _; eexists; split; reflexivity);
      try (intros _; eexists; reflexivity);
      try (intros _; left; reflexivity);
      try (intros _; right; eexists; repeat split; reflexivity).
  - intros toISO stringify net username.
    unfold hn_get_user, hn_api. cbn [api_getUser]. rewrite settled_await.
    unfold getUser. rewrite fetchJson_eq. cbn [settled snd].
    unfold endpoint, Payload_HNUser.
    destruct (user_endpoint net _) as [| [[|] [| [user |]]]];
      cbn [ok body completed settled snd].
    + (* no response *)
      split; split.
      * intros [result [Hresult _]]. discriminate.
      * intros [res [Hres _]]. discriminate.
      * intros _. left. reflexivity.
      * intros _. eexists. reflexivity.
    + (* a success with a body that is not JSON *)
      split; split.
      * intros [result [Hresult _]]. discriminate.
      * intros [res [Hres [Hok | Hbody]]]; injection Hres as <-; discriminate.
      * intros _. right. left. eexists. repeat split.
      * intros _. eexists. reflexivity.
    + (* a user *)
      destruct (user_reply_found toISO stringify username user)
        as [[Hrange [result [Hreply Hflag]]] | [Hnonzero [Hout Hreply]]];
        rewrite Hreply; split; split.
      * intros [result' [Hresult Herror]]. injection Hresult as <-. congruence.
      * intros [res [Hres [Hok | Hbody]]]; injection Hres as <-; discriminate.
      * intros [e He]. discriminate.
      * intros [Hno | [[res [Hres [_ Hbody]]] | [res [user' [Hres [_ [Hbody [Hnz Hout]]]]]]]];
          [discriminate | injection Hres as <-; discriminate |].
        injection Hres as <-. injection Hbody as <-. lia.
      * intros [result [Hresult _]]. discriminate.
      * intros [res [Hres [Hok | Hbody]]]; injection Hres as <-; discriminate.
      * intros _. right. right. eexists. exists user. repeat split; assumption.
      * intros _. eexists. reflexivity.
    + (* the JSON value null *)
      cbn [user_reply]. split; split.
      * intros _. eexists. split; [reflexivity |]. right. reflexivity.
      * intros _. eexists. split; reflexivity.
      * intros [e He]. discriminate.
      * intros [Hno | [[res [Hres [_ Hbody]]] | [res [user' [Hres [_ [Hbody _]]]]]]];
          [discriminate | injection Hres as <-; discriminate |].
        injection Hres as <-. discriminate.
    + (* a status that is not a success, whatever the body *)
      cbn [user_reply]. split; split.
      * intros _. eexists. split; [reflexivity |]. left. reflexivity.
      * intros _. eexists. split; reflexivity.
      * intros [e He]. discriminate.
      * intros [Hno | [[res [Hres [Hok _]]] | [res [user' [Hres [Hok _]]]]]];
          [discriminate | injection Hres as <-; discriminate |].
        injection Hres as <-. discriminate.
    + cbn [user_reply]. split; split.
      * intros _. eexists. split; [reflexivity |]. left. reflexivity.
      * intros _. eexists. split; reflexivity.
      * intros [e He]. discriminate.
      * intros [Hno | [[res [Hres [Hok _]]] | [res [user' [Hres [Hok _]]]]]];
          [discriminate | injection Hres as <-; discriminate |].
        injection Hres as <-. discriminate.
    + cbn [user_reply]. split; split.
      * intros _. eexists. split; [reflexivity |]. left. reflexivity.
      * intros _. eexists. split; reflexivity.
      * intros [e He]. discriminate.
      * intros [Hno | [[res [Hres [Hok _]]] | [res [user' [Hres [Hok _]]]]]];
          [discriminate | injection Hres as <-; discriminate |].
        injection Hres as <-. discriminate.
Qed.

(** A user created beyond the dates of JavaScript: the endpoint serves it
    and the handler rejects. *)
Example scenario_late_user (JSON_stringify_summary : UserSummary -> string) :
  hn_get_user String_of_number JSON_stringify_summary (hn_api late_net) "late"
  = (["https://hacker-news.firebaseio.com/v0/user/late.json"%string],
     Rejected RangeError).
Proof. vm_compute. reflexivity. Qed.

(** X19.  A call that does not expand children costs one request.  Within
    the depth bound, when the depth budget is used up, or the item is not
    there, or it has no child ids, the only request of [getCommentTree] is
    the one for its own item. *)
Theorem getCommentTree_single_request (net : Network)
  (itemId maxDepth currentDepth : Z) :
  currentDepth <= maxDepth ->
  maxDepth <= currentDepth
  \/ (forall item,
         settled (getItem net itemId) = Fulfilled (Some item) ->
         item_kids item = None \/ item_kids item = Some []) ->
  fetched (getCommentTree net itemId maxDepth currentDepth) = [item_url_of itemId].
Proof.
  intros Hle Hleaf. rewrite getCommentTree_requests.
  destruct (Z.gtb_spec currentDepth maxDepth); [lia |].
  f_equal.
  destruct (settled (getItem net itemId)) as [[item |] | e]; try reflexivity.
  destruct (item_kids item) as [kids |] eqn:Hkids; [| reflexivity].
  destruct (Z.ltb_spec currentDepth maxDepth) as [Hlt | Hge]; [| reflexivity].
  destruct Hleaf as [Hdepth | Hnone]; [lia |].
  destruct (Hnone item eq_refl) as [Hk | Hk]; rewrite Hkids in Hk; [discriminate |].
  injection Hk as ->. reflexivity.
Qed.

Lemma getCommentTree_single_request_witness :
  fetched (getCommentTree sample_net 1 0 0) = [item_url_of 1].
Proof.
  apply (getCommentTree_single_request sample_net 1 0 0).
  - lia.
  - left. lia.
Defined.

(** The summary of a user with 25 submissions lists the first 20. *)
Example scenario_user_summary :
  user_summary String_of_number sample_user = Fulfilled sample_summary.
Proof. vm_compute. reflexivity. Qed.

(** The clamping seen from the API: over [echo_api], which reports the
    limit it receives as the total and the offset as the id of its one
    story, a limit 1000 and an offset -7 arrive as 50 and 0; and a depth 0
    arrives as 1, which [echo_api] reports as the id of the tree. *)
Example scenario_clamped_calls :
  story_handler String_of_number echo_api top_tool 1000 (-7)
  = ([], Fulfilled echo_story_result)
  /\ hn_get_comments (fun tree => String_of_number (node_id tree)) echo_api 8863 0
     = ([], Fulfilled {| content := ["1"%string]; isError := false |}).
Proof. split; vm_compute; reflexivity. Qed.

(** A story whose time is beyond the dates of JavaScript makes the reply
    throw. *)
Example scenario_late_story (tool : StoryTool) :
  story_reply String_of_number tool 0
    {| items := [ {| item_id := 7; item_type := None; item_by := None;
                     item_time := Some 10000000000000; item_text := None;
                     item_url := None; item_title := None; item_score := None;
                     item_descendants := None; item_kids := None;
                     item_parent := None; item_parts := None; item_poll := None;
                     item_dead := None; item_deleted := None |} ];
       total := 1 |}
  = Rejected RangeError.
Proof. reflexivity. Qed.
